(** * PeakTech 2025 frame decoder: [decode] and the loop of [main] of
    [pt2025.py]

    A shallow embedding of the function [decode] of [pt2025.py] together
    with the part of the Python run time it calls: [bytes] indexing and
    slicing, [bytes.decode] (strict UTF-8), [chr], [int], [float],
    [list.insert], [min] and [logging.debug].  Exceptions are results of
    an error monad, the root logger is threaded as explicit state.

    The loop of [main] that calls [decode] is embedded as a function of
    what the environment answers in each turn (the clock and
    [ser.readline()]), on a state of logger, log records, printed lines
    and calls of [sleep], with [dict], [json.dumps] and [str.join] as the
    loop uses them. *)

From Stdlib Require Import ZArith NArith List Bool Lia String Ascii.
From Stdlib Require Import Strings.Byte.
From Stdlib Require Import Floats.SpecFloat DecimalString.
Import ListNotations.

(** ** The Python run time *)

Module Py.

Local Open Scope N_scope.

(** A [str] is a sequence of Unicode code points, a [bytes] object a
    sequence of bytes. *)
Definition str := list N.
Definition bytes := list byte.

(** The [str] of an ASCII literal of the source. *)
Definition lit (s : string) : str :=
  map N_of_ascii (list_ascii_of_string s).

Definition str_eqb (s t : str) : bool :=
  if list_eq_dec N.eq_dec s t then true else false.

(** [str(n)] for a non-negative [int]. *)
Definition str_of_nat (n : nat) : str :=
  lit (NilEmpty.string_of_uint (Nat.to_uint n)).

(** *** Exceptions *)

Inductive value_error :=
| chr_arg_not_in_range
| invalid_literal_for_int (s : str)
| could_not_convert_string_to_float (s : str).

Inductive exn :=
| Exception (args : str)
| IndexError (args : str)
| UnicodeDecodeError (object : bytes)
| ValueError (why : value_error).

Inductive outcome (A : Type) :=
| Return (a : A)
| Raise (e : exn).
Arguments Return {A} a.
Arguments Raise {A} e.

Definition obind {A B} (m : outcome A) (k : A -> outcome B) : outcome B :=
  match m with
  | Return a => k a
  | Raise e => Raise e
  end.

(** *** [bytes] *)

(** [line[i]] for [0 <= i]: the byte as an [int], [IndexError] past the end. *)
Definition getitem (line : bytes) (i : nat) : outcome N :=
  match nth_error line i with
  | Some b => Return (Byte.to_N b)
  | None => Raise (IndexError (lit "index out of range"))
  end.

(** [line[i:j]] for [0 <= i <= j]: never raises, shorter when [line] is. *)
Definition getslice (line : bytes) (i j : nat) : bytes :=
  firstn (j - i) (skipn i line).

(** [chr(i)]. *)
Definition chr (i : N) : outcome str :=
  if i <? 0x110000 then Return [i] else Raise (ValueError chr_arg_not_in_range).

(** *** [bytes.decode()]: strict UTF-8 *)

Definition is_cont (b : N) : bool := (0x80 <=? b) && (b <=? 0xBF).
Definition cont (b : N) : N := b - 0x80.

(** [utf8 bs] is the text of [bs], or [None] where the decoder finds an
    invalid start byte, an invalid or missing continuation byte, an
    over-long form, a surrogate or a code point above U+10FFFF. *)
Fixpoint utf8 (bs : list N) : option str :=
  match bs with
  | [] => Some []
  | b0 :: r0 =>
    if b0 <? 0x80 then option_map (cons b0) (utf8 r0)
    else if b0 <? 0xC2 then None
    else if b0 <? 0xE0 then
      match r0 with
      | b1 :: r1 =>
        if is_cont b1
        then option_map (cons ((b0 - 0xC0) * 0x40 + cont b1)) (utf8 r1)
        else None
      | _ => None
      end
    else if b0 <? 0xF0 then
      match r0 with
      | b1 :: b2 :: r2 =>
        if is_cont b1 && is_cont b2
           && negb ((b0 =? 0xE0) && (b1 <? 0xA0))
           && negb ((b0 =? 0xED) && (0xA0 <=? b1))
        then option_map
               (cons ((b0 - 0xE0) * 0x1000 + cont b1 * 0x40 + cont b2))
               (utf8 r2)
        else None
      | _ => None
      end
    else if b0 <? 0xF5 then
      match r0 with
      | b1 :: b2 :: b3 :: r3 =>
        if is_cont b1 && is_cont b2 && is_cont b3
           && negb ((b0 =? 0xF0) && (b1 <? 0x90))
           && negb ((b0 =? 0xF4) && (0x90 <=? b1))
        then option_map
               (cons ((b0 - 0xF0) * 0x40000 + cont b1 * 0x1000
                      + cont b2 * 0x40 + cont b3))
               (utf8 r3)
        else None
      | _ => None
      end
    else None
  end.

Definition bytes_decode (b : bytes) : outcome str :=
  match utf8 (map Byte.to_N b) with
  | Some s => Return s
  | None => Raise (UnicodeDecodeError b)
  end.

(** *** Character classes *)

Definition is_digit (c : N) : bool := (48 <=? c) && (c <=? 57).

(** [Py_ISSPACE]: the ASCII white space of the C locale. *)
Definition Py_ISSPACE (c : N) : bool :=
  (c =? 32) || ((9 <=? c) && (c <=? 13)).

(** [Py_UNICODE_ISSPACE]. *)
Definition Py_UNICODE_ISSPACE (c : N) : bool :=
  existsb (N.eqb c)
    [0x9; 0xA; 0xB; 0xC; 0xD; 0x1C; 0x1D; 0x1E; 0x1F; 0x20; 0x85; 0xA0;
     0x1680; 0x2000; 0x2001; 0x2002; 0x2003; 0x2004; 0x2005; 0x2006;
     0x2007; 0x2008; 0x2009; 0x200A; 0x2028; 0x2029; 0x202F; 0x205F;
     0x3000].

(** The code points of general category Nd (Unicode 14.0, the data base of
    CPython 3.11), as the first and last code point of each run; within a
    run the digit values cycle from 0. *)
Definition decimal_runs : list (N * N) :=
  [(0x30, 0x39); (0x660, 0x669); (0x6F0, 0x6F9); (0x7C0, 0x7C9);
   (0x966, 0x96F); (0x9E6, 0x9EF); (0xA66, 0xA6F); (0xAE6, 0xAEF);
   (0xB66, 0xB6F); (0xBE6, 0xBEF); (0xC66, 0xC6F); (0xCE6, 0xCEF);
   (0xD66, 0xD6F); (0xDE6, 0xDEF); (0xE50, 0xE59); (0xED0, 0xED9);
   (0xF20, 0xF29); (0x1040, 0x1049); (0x1090, 0x1099); (0x17E0, 0x17E9);
   (0x1810, 0x1819); (0x1946, 0x194F); (0x19D0, 0x19D9); (0x1A80, 0x1A89);
   (0x1A90, 0x1A99); (0x1B50, 0x1B59); (0x1BB0, 0x1BB9); (0x1C40, 0x1C49);
   (0x1C50, 0x1C59); (0xA620, 0xA629); (0xA8D0, 0xA8D9); (0xA900, 0xA909);
   (0xA9D0, 0xA9D9); (0xA9F0, 0xA9F9); (0xAA50, 0xAA59); (0xABF0, 0xABF9);
   (0xFF10, 0xFF19); (0x104A0, 0x104A9); (0x10D30, 0x10D39);
   (0x11066, 0x1106F); (0x110F0, 0x110F9); (0x11136, 0x1113F);
   (0x111D0, 0x111D9); (0x112F0, 0x112F9); (0x11450, 0x11459);
   (0x114D0, 0x114D9); (0x11650, 0x11659); (0x116C0, 0x116C9);
   (0x11730, 0x11739); (0x118E0, 0x118E9); (0x11950, 0x11959);
   (0x11C50, 0x11C59); (0x11D50, 0x11D59); (0x11DA0, 0x11DA9);
   (0x16A60, 0x16A69); (0x16AC0, 0x16AC9); (0x16B50, 0x16B59);
   (0x1D7CE, 0x1D7FF); (0x1E140, 0x1E149); (0x1E2F0, 0x1E2F9);
   (0x1E950, 0x1E959); (0x1FBF0, 0x1FBF9)].

(** [Py_UNICODE_TODECIMAL]: the decimal digit value, [None] for the C
    function's [-1]. *)
Definition Py_UNICODE_TODECIMAL (c : N) : option N :=
  match find (fun r => (fst r <=? c) && (c <=? snd r)) decimal_runs with
  | Some r => Some ((c - fst r) mod 10)
  | None => None
  end.

(** [_PyUnicode_TransformDecimalAndSpaceToASCII]: an ASCII string is
    returned as it is; otherwise white space becomes a blank, a decimal
    digit its ASCII digit, and the first other character from U+007F on
    becomes ['?'] and ends the result. *)
Fixpoint transform_loop (s : str) : str :=
  match s with
  | [] => []
  | ch :: r =>
    if ch <? 127 then ch :: transform_loop r
    else if Py_UNICODE_ISSPACE ch then 32 :: transform_loop r
    else match Py_UNICODE_TODECIMAL ch with
         | Some d => (48 + d) :: transform_loop r
         | None => [63]
         end
  end.

Definition TransformDecimalAndSpaceToASCII (s : str) : str :=
  if forallb (fun ch => ch <? 128) s then s else transform_loop s.

Fixpoint lstrip (s : str) : str :=
  match s with
  | c :: r => if Py_ISSPACE c then lstrip r else s
  | [] => []
  end.

Definition rstrip (s : str) : str := rev (lstrip (rev s)).

(** The leading decimal digits of [s], read as a number after [acc], their
    count, and the rest of [s]. *)
Fixpoint span_digits (acc : N) (n : nat) (s : str) : N * nat * str :=
  match s with
  | c :: r => if is_digit c then span_digits (10 * acc + (c - 48)) (S n) r
              else (acc, n, s)
  | [] => (acc, n, [])
  end.

(** An optional sign: whether it is ['-'], and the rest. *)
Definition opt_sign (s : str) : bool * str :=
  match s with
  | 45 :: r => (true, r)
  | 43 :: r => (false, r)
  | _ => (false, s)
  end.

(** *** [int(s)] for a [str], base 10 *)

(** The digit scan of [PyLong_FromString]: digits and single underscores;
    [None] for two underscores in a row or one at the end. *)
Fixpoint scan_digits (prev : N) (acc : N) (n : nat) (s : str)
  : option (N * nat * str) :=
  match s with
  | c :: r =>
    if is_digit c then scan_digits c (10 * acc + (c - 48)) (S n) r
    else if c =? 95 then
      if prev =? 95 then None else scan_digits c acc n r
    else if prev =? 95 then None else Some (acc, n, s)
  | [] => if prev =? 95 then None else Some (acc, n, [])
  end.

Definition PyLong_FromString (s : str) : option Z :=
  let (neg, s1) := opt_sign (lstrip s) in
  match s1 with
  | 95 :: _ => None
  | _ =>
    match scan_digits 0 0 0 s1 with
    | Some (v, n, rest) =>
      match n, lstrip rest with
      | S _, [] => Some (if neg then Z.opp (Z.of_N v) else Z.of_N v)
      | _, _ => None
      end
    | None => None
    end
  end.

Definition int (s : str) : outcome Z :=
  match PyLong_FromString (TransformDecimalAndSpaceToASCII s) with
  | Some z => Return z
  | None => Raise (ValueError (invalid_literal_for_int s))
  end.

(** *** [float(s)] for a [str] *)

(** A Python [float] is an IEEE 754 binary64 number. *)
Definition prec : Z := 53.
Definition emax : Z := 1024.
Definition double := spec_float.

(** The double nearest [m * 10^e] (ties to even), with the sign [neg]:
    what a correctly rounding [strtod] returns for the digits [m] and the
    decimal exponent [e]. *)
Definition decimal_to_double (neg : bool) (m : N) (e : Z) : double :=
  match m with
  | N0 => S754_zero neg
  | Npos p =>
    if (0 <=? e)%Z
    then binary_round prec emax neg (p * Z.to_pos (10 ^ e)) 0
    else
      let '(q, e', l) :=
        SFdiv_core_binary prec emax (Zpos p) 0 (10 ^ (- e))%Z 0 in
      binary_round_aux prec emax neg q e' l
  end.

(** [_Py_dg_strtod]: sign, digits with an optional point, at least one
    digit, and an exponent that counts only when it has a digit.  The
    result is the value and the unread rest, [None] when nothing converts. *)
Definition dg_strtod (s : str) : option (double * str) :=
  let (neg, s1) := opt_sign s in
  let '(m1, n1, s2) := span_digits 0 0 s1 in
  let '(m, nfrac, s3) :=
    match s2 with
    | 46 :: r => span_digits m1 0 r
    | _ => (m1, O, s2)
    end in
  match (n1 + nfrac)%nat with
  | O => None
  | S _ =>
    let (e, s4) :=
      match s3 with
      | c :: r =>
        if (c =? 101) || (c =? 69) then
          let (eneg, r1) := opt_sign r in
          let '(a, n, r2) := span_digits 0 0 r1 in
          match n with
          | O => (0%Z, s3)
          | S _ => (if eneg then Z.opp (Z.of_N a) else Z.of_N a, r2)
          end
        else (0%Z, s3)
      | [] => (0%Z, [])
      end in
    Some (decimal_to_double neg m (e - Z.of_nat nfrac), s4)
  end.

Definition Py_TOLOWER (c : N) : N :=
  if (65 <=? c) && (c <=? 90) then c + 32 else c.

(** [case_insensitive_match s t]: the rest of [s] after [t], which is in
    lower case. *)
Fixpoint case_insensitive_match (s t : str) : option str :=
  match t, s with
  | [], _ => Some s
  | ct :: t', cs :: s' =>
    if Py_TOLOWER cs =? ct then case_insensitive_match s' t' else None
  | _ :: _, [] => None
  end.

Definition Py_parse_inf_or_nan (s : str) : option (double * str) :=
  let (neg, s1) := opt_sign s in
  match case_insensitive_match s1 (lit "inf") with
  | Some r =>
    Some (S754_infinity neg,
          match case_insensitive_match r (lit "inity") with
          | Some r' => r'
          | None => r
          end)
  | None =>
    match case_insensitive_match s1 (lit "nan") with
    | Some r => Some (S754_nan, r)
    | None => None
    end
  end.

Definition PyOS_ascii_strtod (s : str) : option (double * str) :=
  match Py_parse_inf_or_nan s with
  | Some r => Some r
  | None => dg_strtod s
  end.

(** [float_from_string_inner]: the whole of the stripped text has to
    convert. *)
Definition float_from_string_inner (s : str) : option double :=
  match PyOS_ascii_strtod (rstrip (lstrip s)) with
  | Some (x, []) => Some x
  | _ => None
  end.

(** The copy that [_Py_string_to_number_with_underscores] makes: every
    underscore has to stand between two digits. *)
Fixpoint remove_underscores (prev : N) (s : str) : option str :=
  match s with
  | c :: r =>
    if c =? 95 then
      if is_digit prev then remove_underscores c r else None
    else if (prev =? 95) && negb (is_digit c) then None
    else option_map (cons c) (remove_underscores c r)
  | [] => if prev =? 95 then None else Some []
  end.

(** [strchr(s, '_')] on the NUL-terminated text. *)
Fixpoint has_underscore (s : str) : bool :=
  match s with
  | c :: r => if c =? 0 then false else (c =? 95) || has_underscore r
  | [] => false
  end.

Definition string_to_number_with_underscores (s : str) : option double :=
  if has_underscore s
  then match remove_underscores 0 s with
       | Some d => float_from_string_inner d
       | None => None
       end
  else float_from_string_inner s.

Definition PyFloat_FromString (s : str) : option double :=
  string_to_number_with_underscores
    (rstrip (lstrip (TransformDecimalAndSpaceToASCII s))).

Definition float (s : str) : outcome double :=
  match PyFloat_FromString s with
  | Some x => Return x
  | None => Raise (ValueError (could_not_convert_string_to_float s))
  end.

(** *** [list.insert] and [min] *)

(** [l.insert(i, x)]: a negative index counts from the end, and an index
    outside the list is clipped to its ends. *)
Definition list_insert {A} (l : list A) (i : Z) (x : A) : list A :=
  let n := Z.of_nat (List.length l) in
  let i := if (i <? 0)%Z then Z.max 0 (i + n) else Z.min i n in
  firstn (Z.to_nat i) l ++ x :: skipn (Z.to_nat i) l.




End Py.

(** ** The decoder *)

Module PT2025.
Import Py.

Local Open Scope N_scope.

(** The value of a reading is the [str] ['OL'] or a [float]. *)
Inductive object :=
| Str (s : str)
| Float (x : double).

(** The dictionary that [decode] returns, by its keys. *)
Record Reading := mkReading {
  sign : str;
  value : object;
  unit : str;
  mode : option str;
  status : list str
}.

(** *** [logging] *)

Definition logging_DEBUG : N := 10.
Definition logging_INFO : N := 20.
Definition logging_WARNING : N := 30.

(** The root logger: its level, the number of its handlers, and what the
    handlers have been given so far. *)
Record root_logger := mkRoot {
  level : N;
  handlers : nat;
  emitted : list (str * object * str * option str * list str)
}.

Definition initial_root : root_logger := mkRoot logging_WARNING 0 [].

(** [logging.basicConfig(level=..., handlers=...)] does nothing when the
    root logger has a handler. *)
Definition basicConfig (lvl : option N) (r : root_logger) : root_logger :=
  match handlers r with
  | O => mkRoot (match lvl with Some l => l | None => level r end) 1
                (emitted r)
  | S _ => r
  end.

(** Statements run on the root logger and return or raise. *)
Definition M (A : Type) : Type := root_logger -> outcome A * root_logger.

Definition ret {A} (a : A) : M A := fun r => (Return a, r).
Definition raise {A} (e : exn) : M A := fun r => (Raise e, r).
Definition lift {A} (o : outcome A) : M A := fun r => (o, r).
Definition bind {A B} (m : M A) (k : A -> M B) : M B :=
  fun r =>
    match m r with
    | (Return a, r') => k a r'
    | (Raise e, r') => (Raise e, r')
    end.

Notation "x <- m ;; k" := (bind m (fun x => k))
  (at level 61, m at next level, right associativity).
Notation "' p <- m ;; k" := (bind m (fun x => let 'p := x in k))
  (at level 61, p pattern, m at next level, right associativity).

(** [try: body except IndexError as ex: handler(ex)]. *)
Definition try_except_IndexError {A} (body : M A) (handler : str -> M A)
  : M A :=
  fun r =>
    match body r with
    | (Raise (IndexError ex), r') => handler ex r'
    | res => res
    end.

(** [logging.debug(msg)]: configures the root logger when it has no
    handler, then emits when its level lets DEBUG through. *)
Definition logging_debug (msg : str * object * str * option str * list str)
  : M Datatypes.unit :=
  fun r =>
    let r := match handlers r with O => basicConfig None r | S _ => r end in
    (Return tt,
     if level r <=? logging_DEBUG
     then mkRoot (level r) (handlers r) (emitted r ++ [msg])
     else r).

(** The module constant [DEBUG] and the logger as [main] sets it up before
    the first frame is read. *)
Definition DEBUG : N := 0.

Definition main_logging : root_logger :=
  basicConfig (Some (if DEBUG =? 0 then logging_INFO else logging_DEBUG))
              initial_root.

(** *** Helpers of the body *)

(** Truth of an [int] in a condition. *)
Definition truthy (n : N) : bool := negb (n =? 0).

(** [status.append(tag)] under [if byte & (2 ** k)]. *)
Definition append_if (byte : N) (k : N) (tag : str) (status : list str)
  : list str :=
  if truthy (N.land byte (2 ^ k)) then status ++ [tag] else status.

(** [x = tag] under [if byte & (2 ** k)]. *)
Definition assign_if {A} (byte : N) (k : N) (tag : A) (x : A) : A :=
  if truthy (N.land byte (2 ^ k)) then tag else x.

(** [list(digits)], and the iteration of a [str] by [join]. *)
Definition list_of_str (s : str) : list str := map (fun c => [c]) s.

(** [sep.join(items)]. *)
Fixpoint join (sep : str) (items : list str) : str :=
  match items with
  | [] => []
  | [x] => x
  | x :: r => x ++ sep ++ join sep r
  end.

Definition wrong_length (n : nat) : exn :=
  Exception (lit "Invalid byte stream input (wrong length " ++ str_of_nat n
             ++ lit ")").

Definition invalid_line (ex : str) : exn :=
  Exception (lit "Invalid line (" ++ ex ++ lit ")").

(** The unit and mode strings of the source that are not ASCII. *)
Definition micro : str := [0xB5].
Definition degree_F : str := [0xB0; 70].
Definition degree_C : str := [0xB0; 67].
Definition Ohm : str := [0x3A9].

(** *** The blocks of [decode]

    The body of [decode] after the fields are read is a sequence of
    blocks, each on its own variables; they are named here by what they
    assign. *)

(** [status = []] and the thirteen [status.append]. *)
Definition decode_status (status_byte_1 status_byte_2 status_byte_3 : N)
  : list str :=
  let status := [] in
  let status := append_if status_byte_1 0 (lit "BPN") status in
  let status := append_if status_byte_1 1 (lit "HOLD") status in
  let status := append_if status_byte_1 2 (lit "REL") status in
  let status := append_if status_byte_1 3 (lit "AC") status in
  let status := append_if status_byte_1 4 (lit "DC") status in
  let status := append_if status_byte_1 5 (lit "AUTO") status in
  let status := append_if status_byte_2 2 (lit "BATT") status in
  let status := append_if status_byte_2 3 (lit "APO") status in
  let status := append_if status_byte_2 4 (lit "MIN") status in
  let status := append_if status_byte_2 5 (lit "MAX") status in
  let status := append_if status_byte_3 1 (lit "%") status in
  let status := append_if status_byte_3 2 (lit "Diode") status in
  let status := append_if status_byte_3 3 (lit "Continuity") status in
  status.

(** [unit = ''] and the four assignments from status byte 3. *)
Definition decode_unit (status_byte_3 : N) : str :=
  let unit := lit "" in
  let unit := assign_if status_byte_3 4 (lit "M") unit in
  let unit := assign_if status_byte_3 5 (lit "k") unit in
  let unit := assign_if status_byte_3 6 (lit "m") unit in
  let unit := assign_if status_byte_3 7 micro unit in
  unit.

(** [mode = None] and the eight assignments from status byte 4. *)
Definition decode_mode (status_byte_4 : N) : option str :=
  let mode := None in
  let mode := assign_if status_byte_4 0 (Some degree_F) mode in
  let mode := assign_if status_byte_4 1 (Some degree_C) mode in
  let mode := assign_if status_byte_4 2 (Some (lit "F")) mode in
  let mode := assign_if status_byte_4 3 (Some (lit "Hz")) mode in
  let mode := assign_if status_byte_4 4 (Some (lit "hFE")) mode in
  let mode := assign_if status_byte_4 5 (Some Ohm) mode in
  let mode := assign_if status_byte_4 6 (Some (lit "A")) mode in
  let mode := assign_if status_byte_4 7 (Some (lit "V")) mode in
  mode.

(** [if mode == 'F': if status_byte_2 & (2 ** 1): unit = 'n']. *)
Definition decode_nano (mode : option str) (status_byte_2 : N) (unit : str)
  : str :=
  match mode with
  | Some m =>
    if str_eqb m (lit "F")
    then assign_if status_byte_2 1 (lit "n") unit
    else unit
  | None => unit
  end.

(** [digits_a] of the [else] branch: the characters of [digits], with
    ['.'] inserted at [min(decpos, 3)] when [decpos > 0]. *)
Definition digits_a (digits : str) (decpos : Z) : list str :=
  if (decpos >? 0)%Z
  then list_insert (list_of_str digits) (Z.min decpos 3) (lit ".")
  else list_of_str digits.

(** [if digits == '?0:?': ... else: ...], which assigns [value] and may
    reassign [sign]. *)
Definition decode_value (digits : str) (decpos : Z) (sign : str)
  : outcome (object * str) :=
  if str_eqb digits (lit "?0:?")
  then Return (Str (lit "OL"), lit "")
  else
    obind (float (join (lit "") (digits_a digits decpos)))
          (fun x => Return (Float x, sign)).

(** *** [decode] *)

Definition decode (line : bytes) : M Reading :=
  if negb (List.length line =? 14)%nat
  then raise (wrong_length (List.length line))
  else
    '(sign, digits, decpos, status_byte_1, status_byte_2, status_byte_3,
      status_byte_4, bar_graph) <-
      try_except_IndexError
        (b0 <- lift (getitem line 0) ;;
         sign <- lift (chr b0) ;;
         digits <- lift (bytes_decode (getslice line 1 5)) ;;
         b6 <- lift (getitem line 6) ;;
         c6 <- lift (chr b6) ;;
         decpos <- lift (int c6) ;;
         status_byte_1 <- lift (getitem line 7) ;;
         status_byte_2 <- lift (getitem line 8) ;;
         status_byte_3 <- lift (getitem line 9) ;;
         status_byte_4 <- lift (getitem line 10) ;;
         bar_graph <- lift (getitem line 11) ;;
         ret (sign, digits, decpos, status_byte_1, status_byte_2,
              status_byte_3, status_byte_4, bar_graph))
        (fun ex => raise (invalid_line ex)) ;;
    let status := decode_status status_byte_1 status_byte_2 status_byte_3 in
    let unit := decode_unit status_byte_3 in
    let mode := decode_mode status_byte_4 in
    let unit := decode_nano mode status_byte_2 unit in
    '(value, sign) <- lift (decode_value digits decpos sign) ;;
    _ <- logging_debug (sign, value, unit, mode, status) ;;
    ret (mkReading sign value unit mode status).

(** *** Frames and fields, for the statements *)

(** Byte [i] of a frame as an [int]. *)
Definition field (line : bytes) (i : nat) : N := Byte.to_N (nth i line x00).

(** The raised exceptions by the error they stand for. *)
Definition FrameWrongLength (e : exn) : Prop :=
  exists n, e = wrong_length n.


Definition InvalidDecimalPosition (e : exn) : Prop :=
  exists s, e = ValueError (invalid_literal_for_int s).

(** The documented bit tables: status tags by frame byte and bit, in the
    order of the scan, and the unit and mode tags by bit. *)
Definition status_table : list (nat * N * str) :=
  [(7%nat, 0, lit "BPN"); (7%nat, 1, lit "HOLD"); (7%nat, 2, lit "REL");
   (7%nat, 3, lit "AC"); (7%nat, 4, lit "DC"); (7%nat, 5, lit "AUTO");
   (8%nat, 2, lit "BATT"); (8%nat, 3, lit "APO"); (8%nat, 4, lit "MIN");
   (8%nat, 5, lit "MAX"); (9%nat, 1, lit "%"); (9%nat, 2, lit "Diode");
   (9%nat, 3, lit "Continuity")].

(** Whether the bit of an entry of [status_table] is set in a frame. *)
Definition status_bit (line : bytes) (e : nat * N * str) : bool :=
  N.testbit (field line (fst (fst e))) (snd (fst e)).

Definition unit_tag (bit : N) : str :=
  nth (N.to_nat (bit - 4)) [lit "M"; lit "k"; lit "m"; micro] [].

Definition mode_tag (bit : N) : str :=
  nth (N.to_nat bit)
      [degree_F; degree_C; lit "F"; lit "Hz"; lit "hFE"; Ohm; lit "A";
       lit "V"] [].

(** The number that a text of ASCII digits denotes. *)
Definition digits_number (text : str) : N :=
  fold_left (fun acc c => 10 * acc + (c - 48)) text 0.

(** Four characters with a decimal point at index [min(d, 3)] when
    [0 < d], and the power of ten that the point stands for. *)
Definition decimal_literal (text : str) (d : N) : str :=
  if d =? 0 then text
  else firstn (N.to_nat (N.min d 3)) text
       ++ 46 :: skipn (N.to_nat (N.min d 3)) text.

Definition decimal_exponent (d : N) : Z :=
  if d =? 0 then 0%Z else (- Z.of_N (4 - N.min d 3))%Z.

(** *** Checks by computation *)

Definition double_eqb (x y : double) : bool :=
  match x, y with
  | S754_zero s, S754_zero t => Bool.eqb s t
  | S754_infinity s, S754_infinity t => Bool.eqb s t
  | S754_nan, S754_nan => true
  | S754_finite s m e, S754_finite t n g =>
    Bool.eqb s t && Pos.eqb m n && Z.eqb e g
  | _, _ => false
  end.

Definition ten : list N := [0; 1; 2; 3; 4; 5; 6; 7; 8; 9].
Definition four : list N := [0; 1; 2; 3].

(** For the digits [d1 d2 d3 d4] and the decimal position [d], which
    counts up to 3 only: [float]
    of the text that [decode] builds, and of the literal with the point
    at [min(d, 3)], is the double nearest the number of the digits times
    the power of ten. *)
Definition check_digits (d1 d2 d3 d4 d : N) : bool :=
  let text := [48 + d1; 48 + d2; 48 + d3; 48 + d4] in
  let expected :=
    decimal_to_double false (digits_number text) (decimal_exponent d) in
  match float (join (lit "") (digits_a text (Z.of_N d))),
        float (decimal_literal text d) with
  | Return x, Return y => double_eqb x expected && double_eqb y expected
  | _, _ => false
  end.

(** Scenario A of the documentation: ['+1234:2'], AC, Volt. *)
Definition frame_A : bytes :=
  ["+"; "1"; "2"; "3"; "4"; ":"; "2"; x08; x00; x00; x80; x00; x0d; x0a]%byte.

(** Scenario A with other bytes at the places 5, 11, 12 and 13. *)
Definition frame_A_alt : bytes :=
  ["+"; "1"; "2"; "3"; "4"; " "; "2"; x08; x00; x00; x80; x7f; x00; xff]%byte.

(** Scenario C: kilo-ohm with REL and AUTO. *)
Definition frame_C : bytes :=
  ["+"; "0"; "4"; "7"; "0"; ":"; "1"; x24; x00; x20; x20; x00; x0d; x0a]%byte.

(** Scenario D: Farad with the nano bit, and the micro bit of status
    byte 3 set as well. *)
Definition frame_D : bytes :=
  ["+"; "0"; "1"; "0"; "0"; ":"; "0"; x00; x02; x80; x04; x00; x0d; x0a]%byte.

(** Scenario B: over-range. *)
Definition frame_OL : bytes :=
  ["-"; "?"; "0"; ":"; "?"; ":"; "3"; x20; x00; x10; x20; x00; x0d; x0a]%byte.

(** Over-range digits with a decimal-position byte that is no digit. *)
Definition frame_OL_x : bytes :=
  ["+"; "?"; "0"; ":"; "?"; ":"; "x"; x00; x00; x00; x20; x00; x0d; x0a]%byte.

(** Digit bytes with a leading blank. *)
Definition frame_blank : bytes :=
  ["+"; " "; "1"; "2"; "3"; ":"; "0"; x00; x00; x00; x80; x00; x0d; x0a]%byte.




(** Scenario E: ten bytes. *)
Definition frame_short : bytes :=
  ["+"; "1"; "2"; "3"; "4"; ":"; "2"; x08; x00; x00]%byte.

(** The reading of scenario A: 12.34 is [6946802425218990 * 2^-49]. *)
Definition reading_A : Reading :=
  mkReading (lit "+") (Float (S754_finite false 6946802425218990 (-49)))
            (lit "") (Some (lit "V")) [lit "AC"].

Definition reading_C : Reading :=
  mkReading (lit "+") (Float (S754_finite false 8466767299456532 (-54)))
            (lit "k") (Some Ohm) [lit "REL"; lit "AUTO"].

Definition reading_D : Reading :=
  mkReading (lit "+") (Float (S754_finite false 7036874417766400 (-46)))
            (lit "n") (Some (lit "F")) [].

Definition reading_blank : Reading :=
  mkReading (lit "+") (Float (S754_finite false 8655355533852672 (-46)))
            (lit "") (Some (lit "V")) [].


Definition reading_OL : Reading :=
  mkReading (lit "") (Str (lit "OL")) (lit "M") (Some Ohm) [lit "AUTO"].

(** Scenario A with the decimal positions 3 and 9, and with the sign
    byte ['-']. *)
Definition frame_A_3 : bytes :=
  ["+"; "1"; "2"; "3"; "4"; ":"; "3"; x08; x00; x00; x80; x00; x0d; x0a]%byte.

Definition frame_A_9 : bytes :=
  ["+"; "1"; "2"; "3"; "4"; ":"; "9"; x08; x00; x00; x80; x00; x0d; x0a]%byte.

Definition frame_A_minus : bytes :=
  ["-"; "1"; "2"; "3"; "4"; ":"; "2"; x08; x00; x00; x80; x00; x0d; x0a]%byte.

End PT2025.

(** ** The loop of [main] *)

Module Main.
Import Py PT2025.

Local Open Scope N_scope.

(** *** Objects and dictionaries *)

(** The values that the dictionary [data] holds. *)
Inductive pyobject :=
| PyStr (s : str)
| PyFloat (x : double)
| PyNone
| PyList (items : list str).

(** A [dict] with [str] keys, in the order of insertion. *)
Definition dict := list (str * pyobject).

(** [d[k] = v]: an old key keeps its place. *)
Fixpoint dict_setitem (k : str) (v : pyobject) (d : dict) : dict :=
  match d with
  | [] => [(k, v)]
  | (k', v') :: r =>
    if str_eqb k' k then (k', v) :: r else (k', v') :: dict_setitem k v r
  end.

(** [d.update(other)]. *)
Definition dict_update (d other : dict) : dict :=
  fold_left (fun d kv => dict_setitem (fst kv) (snd kv) d) other d.

(** [k in d]. *)
Definition dict_contains (k : str) (d : dict) : bool :=
  existsb (fun kv => str_eqb (fst kv) k) d.

(** [d[k]], [None] for [KeyError]. *)
Fixpoint dict_getitem (k : str) (d : dict) : option pyobject :=
  match d with
  | [] => None
  | (k', v) :: r => if str_eqb k' k then Some v else dict_getitem k r
  end.

(** [d.values()]. *)
Definition dict_values (d : dict) : list pyobject := map snd d.

(** The dictionary that [decode] returns. *)
Definition reading_dict (rd : Reading) : dict :=
  [(lit "sign", PyStr (sign rd));
   (lit "value", match value rd with Str s => PyStr s | Float x => PyFloat x end);
   (lit "unit", PyStr (unit rd));
   (lit "mode", match mode rd with Some m => PyStr m | None => PyNone end);
   (lit "status", PyList (status rd))].

(** *** The command line and the environment *)

(** The values that [main] takes from [arguments]. *)
Record Arguments := mkArguments {
  port : str;
  list_ports : bool;
  as_json : bool;
  print_epoch : bool;
  print_isoformattime : bool;
  sleep_after_read : str
}.

(** What the environment answers in one turn of the loop: the texts of
    [now.isoformat()] and [now.strftime("%s.%f")], the line that
    [ser.readline()] returns, [None] when it raises, and whether [print]
    raises on a text ([UnicodeEncodeError] when the encoding of the
    output has no place for one of its characters, [BrokenPipeError] or
    another [OSError] of the write). *)
Record tick := mkTick {
  isoformat : str;
  strftime : str;
  readline : option bytes;
  print_raises : str -> bool
}.

(** What is logged: a message, or the [args] of an exception. *)
Inductive payload :=
| Message (msg : str)
| Args (ex : exn).

Inductive seconds :=
| Seconds_int (n : Z)
| Seconds_float (x : double).

(** The state of the program: the root logger, the records of [warning]
    and [error] that its handlers were given, the lines of the calls of
    [print] that returned, and the calls of [sleep] that returned. *)
Record world := mkWorld {
  root : root_logger;
  records : list (N * payload);
  stdout : list str;
  slept : list seconds
}.

Definition logging_ERROR : N := 40.

(** [logging.warning(msg)], [logging.error(msg)]: as [logging.debug], at
    their level. *)
Definition logging_log (levelno : N) (msg : payload) (w : world) : world :=
  let r :=
    match handlers (root w) with
    | O => basicConfig None (root w)
    | S _ => root w
    end in
  mkWorld r
          (if level r <=? levelno then records w ++ [(levelno, msg)]
           else records w)
          (stdout w) (slept w).

(** [sleep(1)]. *)
Definition sleep_1 (w : world) : world :=
  mkWorld (root w) (records w) (stdout w) (slept w ++ [Seconds_int 1]).

(** How a turn of the loop ends: with the next turn, or with an exception
    that nothing catches. *)
Inductive crash :=
| Uncaught (ex : exn)
| TypeError_join
| KeyError_status
| Raised_by_print (text : str)
| Raised_by_sleep (x : double).

Inductive ending :=
| Next
| Crash (c : crash).

(** [print(text, flush=True)] in the turn [t]: the line goes to the
    output, unless the call raises. *)
Definition print (t : tick) (text : str) (w : world) : ending * world :=
  if print_raises t text then (Crash (Raised_by_print text), w)
  else (Next, mkWorld (root w) (records w) (stdout w ++ [text]) (slept w)).

(** [','.join(v)]: the items of a list, the characters of a [str], and
    [TypeError] for what cannot be iterated. *)
Definition join_comma (v : pyobject) : option str :=
  match v with
  | PyList items => Some (join (lit ",") items)
  | PyStr s => Some (join (lit ",") (list_of_str s))
  | PyFloat _ | PyNone => None
  end.

(** Truth of a [float] in a condition. *)
Definition float_truthy (x : double) : bool :=
  match x with
  | S754_zero _ => false
  | _ => true
  end.

(** *** [json.dumps], with [ensure_ascii] *)

Definition hex_digit (n : N) : N := if n <? 10 then 48 + n else 87 + n.

(** The escape [\uXXXX] of a code unit. *)
Definition u_escape (n : N) : str :=
  [92; 117; hex_digit (n / 4096 mod 16); hex_digit (n / 256 mod 16);
   hex_digit (n / 16 mod 16); hex_digit (n mod 16)].

Definition escape_char (c : N) : str :=
  if c =? 92 then [92; 92]
  else if c =? 34 then [92; 34]
  else if (32 <=? c) && (c <=? 126) then [c]
  else if c =? 8 then [92; 98]
  else if c =? 12 then [92; 102]
  else if c =? 10 then [92; 110]
  else if c =? 13 then [92; 114]
  else if c =? 9 then [92; 116]
  else if c <? 0x10000 then u_escape c
  else u_escape (0xD800 + ((c - 0x10000) / 1024) mod 1024)
       ++ u_escape (0xDC00 + (c - 0x10000) mod 1024).

Definition encode_basestring_ascii (s : str) : str :=
  34 :: List.concat (map escape_char s) ++ [34].

(** *** For the statements *)

(** The dictionary [data] as it is printed for a reading. *)
Definition printed_data (arguments : Arguments) (t : tick) (rd : Reading)
  : dict :=
  (if print_isoformattime arguments
   then [(lit "isotime", PyStr (isoformat t))] else [])
  ++ (if print_epoch arguments
      then [(lit "epoch", PyStr (strftime t))] else [])
  ++ [(lit "sign", PyStr (sign rd));
      (lit "value",
       match value rd with Str s => PyStr s | Float x => PyFloat x end);
      (lit "unit", PyStr (unit rd));
      (lit "mode", match mode rd with Some m => PyStr m | None => PyNone end);
      (lit "status", PyStr (join (lit ",") (status rd)))].

(** The printable ASCII characters. *)
Definition printable (c : N) : bool := (32 <=? c) && (c <=? 126).

(** The records and the calls of [sleep(1)] of a turn, for the root
    logger [r]. *)
Definition tick_records (r : root_logger) (t : tick) : list (N * payload) :=
  match readline t with
  | None =>
    [(logging_ERROR, Message (lit "No data! (Is the device in USB mode?)"))]
  | Some line =>
    match fst (decode line r) with
    | Raise ex => [(logging_WARNING, Args ex)]
    | Return _ => []
    end
  end.

Definition decodable (r : root_logger) (t : tick) : bool :=
  match readline t with
  | Some line =>
    match fst (decode line r) with
    | Return _ => true
    | Raise _ => false
    end
  | None => false
  end.

Section Rendering.

(** The run-time functions that are taken as they are: [float.__repr__],
    the [str] of a list, and whether [time.sleep] rejects its argument. *)
Variable float_repr : double -> str.
Variable list_repr : list str -> str.
Variable sleep_raises : double -> bool.

(** [str(v)]. *)
Definition py_str (v : pyobject) : str :=
  match v with
  | PyStr s => s
  | PyFloat x => float_repr x
  | PyNone => lit "None"
  | PyList items => list_repr items
  end.

Definition floatstr (x : double) : str :=
  match x with
  | S754_nan => lit "NaN"
  | S754_infinity false => lit "Infinity"
  | S754_infinity true => lit "-Infinity"
  | _ => float_repr x
  end.

Definition json_value (v : pyobject) : str :=
  match v with
  | PyStr s => encode_basestring_ascii s
  | PyFloat x => floatstr x
  | PyNone => lit "null"
  | PyList items =>
    lit "[" ++ join (lit ", ") (map encode_basestring_ascii items) ++ lit "]"
  end.

(** [dumps(data)]. *)
Definition dumps (data : dict) : str :=
  lit "{"
  ++ join (lit ", ")
          (map (fun kv => encode_basestring_ascii (fst kv) ++ lit ": "
                          ++ json_value (snd kv)) data)
  ++ lit "}".

(** [sleep(x)] for a [float]. *)
Definition sleep (x : double) (w : world) : ending * world :=
  if sleep_raises x then (Crash (Raised_by_sleep x), w)
  else (Next,
        mkWorld (root w) (records w) (stdout w)
                (slept w ++ [Seconds_float x])).

(** *** The body of [while True] *)

Definition iteration (arguments : Arguments) (t : tick) (w : world)
  : ending * world :=
  let data : dict := [] in
  let data :=
    if print_isoformattime arguments
    then dict_setitem (lit "isotime") (PyStr (isoformat t)) data
    else data in
  let data :=
    if print_epoch arguments
    then dict_setitem (lit "epoch") (PyStr (strftime t)) data
    else data in
  match readline t with
  | None =>
    let w :=
      logging_log logging_ERROR
        (Message (lit "No data! (Is the device in USB mode?)")) w in
    (Next, sleep_1 w)
  | Some line =>
    match decode line (root w) with
    | (Raise ex, r) =>
      (Next,
       logging_log logging_WARNING (Args ex)
         (mkWorld r (records w) (stdout w) (slept w)))
    | (Return rd, r) =>
      let w := mkWorld r (records w) (stdout w) (slept w) in
      let data := dict_update data (reading_dict rd) in
      if negb (dict_contains (lit "value") data)
      then (Next, logging_log logging_ERROR (Message (lit "No data!")) w)
      else
        let joined :=
          if dict_contains (lit "status") data
          then match dict_getitem (lit "status") data with
               | Some v =>
                 match join_comma v with
                 | Some s => inl (dict_setitem (lit "status") (PyStr s) data)
                 | None => inr TypeError_join
                 end
               | None => inr KeyError_status
               end
          else inl data in
        match joined with
        | inr c => (Crash c, w)
        | inl data =>
          match
            if as_json arguments
            then print t (dumps data) w
            else print t (join (lit ";") (map py_str (dict_values data))) w
          with
          | (Crash c, w) => (Crash c, w)
          | (Next, w) =>
            match float (sleep_after_read arguments) with
            | Raise ex => (Crash (Uncaught ex), w)
            | Return x =>
              if float_truthy x
              then match float (sleep_after_read arguments) with
                   | Raise ex => (Crash (Uncaught ex), w)
                   | Return secs => sleep secs w
                   end
              else (Next, w)
            end
          end
        end
    end
  end.

(** The loop on the answers of the environment, as far as they go. *)
Fixpoint loop (arguments : Arguments) (ticks : list tick) (w : world)
  : ending * world :=
  match ticks with
  | [] => (Next, w)
  | t :: ticks' =>
    match iteration arguments t w with
    | (Next, w') => loop arguments ticks' w'
    | (Crash c, w') => (Crash c, w')
    end
  end.

(** The line that is printed for a reading, and the lines and the calls
    of [sleep] of a turn when [--sleep] reads as [x]. *)
Definition printed_line (arguments : Arguments) (t : tick) (rd : Reading)
  : str :=
  if as_json arguments
  then dumps (printed_data arguments t rd)
  else join (lit ";") (map py_str (dict_values (printed_data arguments t rd))).

Definition tick_lines (arguments : Arguments) (r : root_logger) (t : tick)
  : list str :=
  match readline t with
  | Some line =>
    match fst (decode line r) with
    | Return rd => [printed_line arguments t rd]
    | Raise _ => []
    end
  | None => []
  end.

(** [print] returns on the line of the turn, if it has one. *)
Definition print_returns (arguments : Arguments) (r : root_logger)
           (t : tick) : Prop :=
  forall text, In text (tick_lines arguments r t) ->
               print_raises t text = false.

Definition tick_sleeps (x : double) (r : root_logger) (t : tick)
  : list seconds :=
  match readline t with
  | None => [Seconds_int 1]
  | Some _ =>
    if decodable r t && float_truthy x then [Seconds_float x] else []
  end.

End Rendering.

(** The state in which [main] enters the loop. *)
Definition main_world : world := mkWorld main_logging [] [] [].

(** The command line without options, and with a [--sleep] that is no
    number; a turn with an over-range frame, and one with the empty line
    of a time-out. *)
Definition arguments_default : Arguments :=
  mkArguments (lit "/dev/ttyUSB0") false false false false (lit "0").

Definition arguments_sleep_abc : Arguments :=
  mkArguments (lit "/dev/ttyUSB0") false true false false (lit "abc").

Definition tick_OL : tick :=
  mkTick (lit "2022-02-09T12:00:00") (lit "1644408000.000000")
         (Some frame_OL) (fun _ => false).

Definition tick_timeout : tick :=
  mkTick (lit "2022-02-09T12:00:01") (lit "1644408001.000000") (Some [])
         (fun _ => false).


End Main.

(** ** Facts about the run time *)

Module PyFacts.
Import Py.

Local Open Scope N_scope.

Lemma str_eqb_eq (s t : str) : str_eqb s t = true <-> s = t.
Proof.
  unfold str_eqb. destruct (list_eq_dec N.eq_dec s t); split; congruence.
Qed.

Lemma str_eqb_neq (s t : str) : str_eqb s t = false <-> s <> t.
Proof.
  unfold str_eqb. destruct (list_eq_dec N.eq_dec s t); split; congruence.
Qed.

(** A byte is a valid argument of [chr]. *)
Lemma chr_byte (b : byte) : chr (Byte.to_N b) = Return [Byte.to_N b].
Proof.
  unfold chr. pose proof (Byte.to_N_bounded b) as Hb.
  destruct (N.ltb_spec (Byte.to_N b) 0x110000) as [_ | Hge]; [reflexivity | lia].
Qed.

(** [byte & (2 ** k)] is true exactly when bit [k] of [byte] is set. *)
Lemma land_pow2 (b k : N) :
  N.land b (2 ^ k) = if N.testbit b k then 2 ^ k else 0.
Proof.
  apply N.bits_inj. intro n.
  rewrite N.land_spec, N.pow2_bits_eqb.
  destruct (N.eqb_spec k n) as [-> | Hne].
  - rewrite andb_true_r.
    destruct (N.testbit b n) eqn:Hb.
    + now rewrite N.pow2_bits_true.
    + now rewrite N.bits_0.
  - rewrite andb_false_r.
    destruct (N.testbit b k).
    + rewrite N.pow2_bits_false; [reflexivity | exact Hne].
    + now rewrite N.bits_0.
Qed.

Lemma to_N_inj (x y : byte) : Byte.to_N x = Byte.to_N y -> x = y.
Proof.
  intro H. pose proof (Byte.of_to_N x) as Hx. rewrite H, Byte.of_to_N in Hx.
  now injection Hx.
Qed.

Lemma map_to_N_inj (xs ys : bytes) :
  map Byte.to_N xs = map Byte.to_N ys -> xs = ys.
Proof.
  revert ys. induction xs as [| x xs IH]; intros [| y ys] H;
    try discriminate H; [reflexivity |].
  cbn in H. injection H as Hxy Hrest.
  f_equal; [now apply to_N_inj | now apply IH].
Qed.

(** Text whose characters are all ASCII comes from exactly these bytes:
    every form of two bytes or more decodes to a code point from U+0080
    on. *)
Lemma utf8_ascii (n : nat) :
  forall bs s,
    (List.length bs <= n)%nat ->
    utf8 bs = Some s ->
    Forall (fun c => c < 128) s ->
    s = bs.
Proof.
  induction n as [| n IH]; intros bs s Hlen Hu Hs.
  - destruct bs; [cbn in Hu; congruence | cbn in Hlen; lia].
  - destruct bs as [| b0 r0]; [cbn in Hu; congruence |].
    cbn [utf8] in Hu. cbn [List.length] in Hlen.
    destruct (N.ltb_spec b0 0x80) as [L0 | L0].
    { destruct (utf8 r0) as [s' |] eqn:E; cbn in Hu; [| discriminate].
      injection Hu as <-. inversion Hs; subst. f_equal.
      apply (IH r0 s'); [lia | exact E | assumption]. }
    exfalso.
    destruct (N.ltb_spec b0 0xC2) as [L1 | L1]; [discriminate |].
    destruct (N.ltb_spec b0 0xE0) as [L2 | L2].
    { destruct r0 as [| b1 r1]; [discriminate |].
      destruct (is_cont b1) eqn:C1; [| discriminate].
      destruct (utf8 r1); cbn in Hu; [| discriminate].
      injection Hu as <-. inversion Hs as [| c l Hc Hl]; subst.
      unfold cont in Hc. lia. }
    destruct (N.ltb_spec b0 0xF0) as [L3 | L3].
    { destruct r0 as [| b1 [| b2 r2]]; try discriminate.
      destruct (is_cont b1) eqn:C1; [| discriminate].
      destruct (is_cont b2) eqn:C2; [| discriminate].
      cbn [andb] in Hu.
      destruct (N.eqb_spec b0 0xE0) as [E0 | E0];
        destruct (N.ltb_spec b1 0xA0) as [A0 | A0];
        cbn [andb negb] in Hu; try discriminate;
        destruct (N.eqb_spec b0 0xED);
        destruct (N.leb_spec 0xA0 b1);
        cbn [andb negb] in Hu; try discriminate;
        (destruct (utf8 r2); cbn in Hu; [| discriminate]);
        injection Hu as <-; inversion Hs as [| c l Hc Hl]; subst;
        unfold is_cont in C1; apply andb_true_iff in C1 as [C1 _];
        apply N.leb_le in C1; unfold cont in Hc; lia. }
    destruct (N.ltb_spec b0 0xF5) as [L4 | L4]; [| discriminate].
    destruct r0 as [| b1 [| b2 [| b3 r3]]]; try discriminate.
    destruct (is_cont b1) eqn:C1; [| discriminate].
    destruct (is_cont b2) eqn:C2; [| discriminate].
    destruct (is_cont b3) eqn:C3; [| discriminate].
    cbn [andb] in Hu.
    destruct (N.eqb_spec b0 0xF0) as [E0 | E0];
      destruct (N.ltb_spec b1 0x90) as [A0 | A0];
      cbn [andb negb] in Hu; try discriminate;
      destruct (N.eqb_spec b0 0xF4);
      destruct (N.leb_spec 0x90 b1);
      cbn [andb negb] in Hu; try discriminate;
      (destruct (utf8 r3); cbn in Hu; [| discriminate]);
      injection Hu as <-; inversion Hs as [| c l Hc Hl]; subst;
      unfold is_cont in C1; apply andb_true_iff in C1 as [C1 _];
      apply N.leb_le in C1; unfold cont in Hc; lia.
Qed.

(** ASCII bytes decode to themselves. *)
Lemma utf8_of_ascii (bs : list N) :
  Forall (fun c => c < 128) bs -> utf8 bs = Some bs.
Proof.
  induction 1 as [| b bs Hb _ IH]; [reflexivity |].
  cbn [utf8]. destruct (N.ltb_spec b 0x80); [| lia]. now rewrite IH.
Qed.

(** The digit bytes decode to an ASCII text exactly when they are its
    bytes. *)
Lemma bytes_decode_ascii (b : bytes) (s : str) :
  Forall (fun c => c < 128) s ->
  bytes_decode b = Return s <-> map Byte.to_N b = s.
Proof.
  intro Hs. unfold bytes_decode. split.
  - destruct (utf8 (map Byte.to_N b)) as [s' |] eqn:E; [| discriminate].
    intro H. injection H as ->. symmetry.
    now apply (utf8_ascii (List.length (map Byte.to_N b))).
  - intros <-. now rewrite utf8_of_ascii.
Qed.

(** *** [float] reads nothing outside its alphabet *)





















End PyFacts.

(** ** Properties of [decode] *)

Module PT2025_Spec.
Import Py PyFacts PT2025.

Local Open Scope N_scope.

Lemma frame_14 (line : bytes) :
  List.length line = 14%nat ->
  exists b0 b1 b2 b3 b4 b5 b6 b7 b8 b9 b10 b11 b12 b13,
    line = [b0; b1; b2; b3; b4; b5; b6; b7; b8; b9; b10; b11; b12; b13].
Proof.
  intro H.
  do 14 (destruct line as [| ? line]; [discriminate H |]).
  destruct line; [| discriminate H].
  repeat eexists.
Qed.

Lemma decode_frame (b0 b1 b2 b3 b4 b5 b6 b7 b8 b9 b10 b11 b12 b13 : byte)
      (r : root_logger) :
  decode [b0; b1; b2; b3; b4; b5; b6; b7; b8; b9; b10; b11; b12; b13] r =
  match bytes_decode [b1; b2; b3; b4] with
  | Raise e => (Raise e, r)
  | Return digits =>
    match int [Byte.to_N b6] with
    | Raise e => (Raise e, r)
    | Return decpos =>
      match decode_value digits decpos [Byte.to_N b0] with
      | Raise e => (Raise e, r)
      | Return (value, sign) =>
        let mode := decode_mode (Byte.to_N b10) in
        let unit :=
          decode_nano mode (Byte.to_N b8) (decode_unit (Byte.to_N b9)) in
        let status :=
          decode_status (Byte.to_N b7) (Byte.to_N b8) (Byte.to_N b9) in
        (Return (mkReading sign value unit mode status),
         snd (logging_debug (sign, value, unit, mode, status) r))
      end
    end
  end.
Proof.
  unfold decode, try_except_IndexError, bind, lift, ret, raise.
  cbn [List.length Nat.eqb negb getitem nth_error getslice skipn firstn Nat.sub].
  rewrite !chr_byte.
  unfold bytes_decode, int.
  destruct (utf8 (map Byte.to_N [b1; b2; b3; b4])) as [digits |];
    [| reflexivity].
  destruct (PyLong_FromString _) as [decpos |]; [| reflexivity].
  destruct (decode_value digits decpos [Byte.to_N b0]) as [[v sg] | e];
    [| reflexivity].
  unfold logging_debug. reflexivity.
Qed.

Lemma truthy_land (b k : N) : truthy (N.land b (2 ^ k)) = N.testbit b k.
Proof.
  rewrite land_pow2. unfold truthy.
  destruct (N.testbit b k); [| reflexivity].
  destruct (N.eqb_spec (2 ^ k) 0) as [H0 | _]; [| reflexivity].
  apply N.pow_nonzero in H0; [contradiction | discriminate].
Qed.

Lemma int_byte (b : byte) :
  int [Byte.to_N b] =
  if is_digit (Byte.to_N b)
  then Return (Z.of_N (Byte.to_N b - 48))
  else Raise (ValueError (invalid_literal_for_int [Byte.to_N b])).
Proof. destruct b; reflexivity. Qed.

Lemma decode_value_Raise digits decpos sign e :
  decode_value digits decpos sign = Raise e ->
  exists s, e = ValueError (could_not_convert_string_to_float s).
Proof.
  unfold decode_value, float.
  destruct (str_eqb digits (lit "?0:?")); [discriminate |].
  destruct (PyFloat_FromString _); simpl; [discriminate |].
  intro H. injection H as <-. eauto.
Qed.

(** What a returned reading is made of. *)
Lemma decode_Return (line : bytes) (r r' : root_logger) (rd : Reading) :
  List.length line = 14%nat ->
  decode line r = (Return rd, r') ->
  mode rd = decode_mode (field line 10) /\
  unit rd = decode_nano (mode rd) (field line 8) (decode_unit (field line 9)) /\
  status rd = decode_status (field line 7) (field line 8) (field line 9) /\
  is_digit (field line 6) = true /\
  r' = snd (logging_debug
              (sign rd, value rd, unit rd, mode rd, status rd) r) /\
  exists digits,
    bytes_decode (getslice line 1 5) = Return digits /\
    decode_value digits (Z.of_N (field line 6 - 48)) [field line 0]
    = Return (value rd, sign rd).
Proof.
  intros Hlen Hdec.
  destruct (frame_14 line Hlen)
    as (b0 & b1 & b2 & b3 & b4 & b5 & b6 & b7 & b8 & b9 & b10 & b11 & b12
        & b13 & ->).
  rewrite decode_frame, int_byte in Hdec.
  unfold field. cbn [nth getslice skipn firstn Nat.sub].
  unfold bytes_decode in *.
  destruct (utf8 (map Byte.to_N [b1; b2; b3; b4])) as [digits |];
    [| discriminate].
  destruct (is_digit (Byte.to_N b6)); [| discriminate].
  destruct (decode_value digits _ _) as [[v sg] | e] eqn:Hv; [| discriminate].
  cbv zeta in Hdec. injection Hdec as <- <-. cbn [mode unit status sign value].
  repeat split; eauto.
Qed.

(** [decode] on a frame of 14 bytes, by its fields. *)
Lemma decode_14 (line : bytes) (r : root_logger) :
  List.length line = 14%nat ->
  decode line r =
  match bytes_decode (getslice line 1 5) with
  | Raise e => (Raise e, r)
  | Return digits =>
    if is_digit (field line 6) then
      match decode_value digits (Z.of_N (field line 6 - 48)) [field line 0]
      with
      | Raise e => (Raise e, r)
      | Return (value, sign) =>
        let mode := decode_mode (field line 10) in
        let unit :=
          decode_nano mode (field line 8) (decode_unit (field line 9)) in
        let status :=
          decode_status (field line 7) (field line 8) (field line 9) in
        (Return (mkReading sign value unit mode status),
         snd (logging_debug (sign, value, unit, mode, status) r))
      end
    else (Raise (ValueError (invalid_literal_for_int [field line 6])), r)
  end.
Proof.
  intros Hlen.
  destruct (frame_14 line Hlen)
    as (b0 & b1 & b2 & b3 & b4 & b5 & b6 & b7 & b8 & b9 & b10 & b11 & b12
        & b13 & ->).
  rewrite decode_frame, int_byte.
  unfold field. cbn [nth getslice skipn firstn Nat.sub].
  unfold bytes_decode.
  destruct (utf8 (map Byte.to_N [b1; b2; b3; b4])); [| reflexivity].
  destruct (is_digit (Byte.to_N b6)); reflexivity.
Qed.

(** Claim C6.  An input whose length is not 14 raises the wrong-length
    exception, whose message holds the length and nothing else of the
    input, and leaves the logger as it was; an input of 14 bytes never
    raises it. *)
Theorem decode_wrong_length (line : bytes) (r : root_logger) :
  (List.length line <> 14%nat ->
   decode line r = (Raise (wrong_length (List.length line)), r)) /\
  (List.length line = 14%nat ->
   forall e, fst (decode line r) = Raise e -> ~ FrameWrongLength e).
Proof.
  split.
  - intro Hlen. unfold decode, raise.
    destruct (Nat.eqb_spec (List.length line) 14) as [H14 | _];
      [contradiction | reflexivity].
  - intros Hlen e He [n Hn]. subst e.
    rewrite (decode_14 line r Hlen) in He.
    unfold bytes_decode in He.
    destruct (utf8 _) as [digits |]; [| discriminate He].
    destruct (is_digit _); [| discriminate He].
    destruct (decode_value _ _ _) as [[v sg] | e] eqn:Hv.
    + discriminate He.
    + apply decode_value_Raise in Hv as [s ->]. discriminate He.
Qed.

Ltac bits_of b :=
  unfold decode_mode, decode_unit, decode_status, assign_if, append_if;
  rewrite ?truthy_land.

Lemma lt8_cases (k : N) :
  k < 8 -> k = 0 \/ k = 1 \/ k = 2 \/ k = 3 \/ k = 4 \/ k = 5 \/ k = 6 \/ k = 7.
Proof. lia. Qed.

Lemma decode_mode_none (b : N) :
  (forall k, k < 8 -> N.testbit b k = false) -> decode_mode b = None.
Proof.
  intro H. bits_of b.
  rewrite !H by lia. reflexivity.
Qed.

Lemma decode_mode_highest (b k : N) :
  k < 8 -> N.testbit b k = true ->
  (forall j, k < j -> j < 8 -> N.testbit b j = false) ->
  decode_mode b = Some (mode_tag k).
Proof.
  intros Hk Hset Hhigh. bits_of b.
  destruct (lt8_cases k Hk) as [-> | [-> | [-> | [-> | [-> | [-> | [-> | ->]]]]]]];
    rewrite Hset, ?Hhigh by lia; reflexivity.
Qed.

(** Claim C4.  The mode of a returned reading is a function of status
    byte 4 (frame byte 10) alone: [None] when none of its bits 0-7 is set,
    otherwise the tag of its highest set bit in the order Fahrenheit,
    Celsius, Farad, Hertz, hFE, Ohm, Ampere, Volt. *)
Theorem decode_mode_highest_bit (line : bytes) (r r' : root_logger) (rd : Reading) :
  List.length line = 14%nat ->
  decode line r = (Return rd, r') ->
  ((forall k, k < 8 -> N.testbit (field line 10) k = false) ->
   mode rd = None) /\
  (forall k, k < 8 -> N.testbit (field line 10) k = true ->
     (forall j, k < j -> j < 8 -> N.testbit (field line 10) j = false) ->
     mode rd = Some (mode_tag k)) /\
  (forall line2 r2 r2' rd2,
     List.length line2 = 14%nat ->
     field line2 10 = field line 10 ->
     decode line2 r2 = (Return rd2, r2') ->
     mode rd2 = mode rd).
Proof.
  intros Hlen Hdec.
  destruct (decode_Return line r r' rd Hlen Hdec) as (Hmode & _).
  rewrite Hmode. split; [| split].
  - apply decode_mode_none.
  - intros k. apply decode_mode_highest.
  - intros line2 r2 r2' rd2 Hlen2 Hsame Hdec2.
    destruct (decode_Return line2 r2 r2' rd2 Hlen2 Hdec2) as (Hmode2 & _).
    now rewrite Hmode2, Hsame.
Qed.

Lemma decode_nano_not_F (m : option str) (b : N) (u : str) :
  m <> Some (lit "F") -> decode_nano m b u = u.
Proof.
  intro Hm. unfold decode_nano. destruct m as [m |]; [| reflexivity].
  destruct (str_eqb m (lit "F")) eqn:E; [| reflexivity].
  apply str_eqb_eq in E. congruence.
Qed.

Lemma decode_nano_F (b : N) (u : str) :
  decode_nano (Some (lit "F")) b u = if N.testbit b 1 then lit "n" else u.
Proof.
  unfold decode_nano, assign_if. rewrite truthy_land. reflexivity.
Qed.

Lemma decode_unit_none (b : N) :
  (forall k, 4 <= k -> k < 8 -> N.testbit b k = false) ->
  decode_unit b = lit "".
Proof.
  intro H. bits_of b. rewrite !H by lia. reflexivity.
Qed.

Lemma decode_unit_highest (b k : N) :
  4 <= k -> k < 8 -> N.testbit b k = true ->
  (forall j, k < j -> j < 8 -> N.testbit b j = false) ->
  decode_unit b = unit_tag k.
Proof.
  intros Hk4 Hk Hset Hhigh. bits_of b.
  destruct (lt8_cases k Hk) as [-> | [-> | [-> | [-> | [-> | [-> | [-> | ->]]]]]]];
    try lia; rewrite Hset, ?Hhigh by lia; reflexivity.
Qed.

Lemma decode_unit_not_n (b : N) : decode_unit b <> lit "n".
Proof.
  bits_of b.
  destruct (N.testbit b 7), (N.testbit b 6), (N.testbit b 5),
    (N.testbit b 4); discriminate.
Qed.

(** Claim C5.  When the mode of a returned reading is not Farad, its unit
    is a function of bits 4-7 of status byte 3 (frame byte 9) alone: empty
    when the four bits are clear, otherwise the tag of the highest set one
    in the order mega, kilo, milli, micro. *)
Theorem decode_unit_highest_bit
        (line : bytes) (r r' : root_logger) (rd : Reading) :
  List.length line = 14%nat ->
  decode line r = (Return rd, r') ->
  mode rd <> Some (lit "F") ->
  ((forall k, 4 <= k -> k < 8 -> N.testbit (field line 9) k = false) ->
   unit rd = lit "") /\
  (forall k, 4 <= k -> k < 8 -> N.testbit (field line 9) k = true ->
     (forall j, k < j -> j < 8 -> N.testbit (field line 9) j = false) ->
     unit rd = unit_tag k) /\
  (forall line2 r2 r2' rd2,
     List.length line2 = 14%nat ->
     field line2 9 = field line 9 ->
     decode line2 r2 = (Return rd2, r2') ->
     mode rd2 <> Some (lit "F") ->
     unit rd2 = unit rd).
Proof.
  intros Hlen Hdec HnotF.
  destruct (decode_Return line r r' rd Hlen Hdec) as (_ & Hunit & _).
  rewrite decode_nano_not_F in Hunit by exact HnotF.
  rewrite Hunit. split; [| split].
  - apply decode_unit_none.
  - intros k. apply decode_unit_highest.
  - intros line2 r2 r2' rd2 Hlen2 Hsame Hdec2 HnotF2.
    destruct (decode_Return line2 r2 r2' rd2 Hlen2 Hdec2) as (_ & Hunit2 & _).
    rewrite decode_nano_not_F in Hunit2 by exact HnotF2.
    now rewrite Hunit2, Hsame.
Qed.

Lemma append_if_app (b k : N) (tag : str) (st : list str) :
  append_if b k tag st = st ++ (if N.testbit b k then [tag] else []).
Proof.
  unfold append_if. rewrite truthy_land.
  destruct (N.testbit b k); [reflexivity | now rewrite app_nil_r].
Qed.

Lemma decode_status_bits (a b c b' : N) :
  (forall k, k <> 1 -> N.testbit b' k = N.testbit b k) ->
  decode_status a b' c = decode_status a b c.
Proof.
  intro H. unfold decode_status. cbv zeta.
  rewrite !append_if_app. rewrite !H by lia. reflexivity.
Qed.

(** The digit bytes of two frames that agree on bytes 1-4. *)
Lemma digits_agree (line line2 : bytes) :
  List.length line = 14%nat ->
  List.length line2 = 14%nat ->
  (forall i, (1 <= i <= 4)%nat -> nth i line2 x00 = nth i line x00) ->
  getslice line2 1 5 = getslice line 1 5.
Proof.
  intros Hlen Hlen2 Hsame.
  destruct (frame_14 line Hlen)
    as (b0 & b1 & b2 & b3 & b4 & b5 & b6 & b7 & b8 & b9 & b10 & b11
        & b12 & b13 & ->).
  destruct (frame_14 line2 Hlen2)
    as (c0 & c1 & c2 & c3 & c4 & c5 & c6 & c7 & c8 & c9 & c10 & c11
        & c12 & c13 & ->).
  pose proof (Hsame 1%nat) as H1. pose proof (Hsame 2%nat) as H2.
  pose proof (Hsame 3%nat) as H3. pose proof (Hsame 4%nat) as H4.
  cbn in H1, H2, H3, H4. cbn.
  rewrite H1, H2, H3, H4 by lia. reflexivity.
Qed.

(** Claim C2.  The unit of a returned reading is nano exactly when its
    mode is Farad and bit 1 of status byte 2 (frame byte 8) is set,
    whatever the unit bits of status byte 3 are; when the mode is not
    Farad the unit is what status byte 3 selects, and a frame that differs
    only in that bit decodes to the same result. *)
Theorem decode_nano_override
        (line : bytes) (r r' : root_logger) (rd : Reading) :
  List.length line = 14%nat ->
  decode line r = (Return rd, r') ->
  (unit rd = lit "n" <->
   mode rd = Some (lit "F") /\ N.testbit (field line 8) 1 = true) /\
  (mode rd <> Some (lit "F") -> unit rd = decode_unit (field line 9)) /\
  (forall line2,
     List.length line2 = 14%nat ->
     (forall i, i <> 8%nat -> nth i line2 x00 = nth i line x00) ->
     (forall k, k <> 1 ->
        N.testbit (field line2 8) k = N.testbit (field line 8) k) ->
     mode rd <> Some (lit "F") ->
     decode line2 r = (Return rd, r')).
Proof.
  intros Hlen Hdec.
  destruct (decode_Return line r r' rd Hlen Hdec) as (Hmode & Hunit & _).
  split; [| split].
  - destruct (mode rd) as [m |] eqn:Em.
    + destruct (list_eq_dec N.eq_dec m (lit "F")) as [-> | HnF].
      * rewrite decode_nano_F in Hunit. rewrite Hunit.
        destruct (N.testbit (field line 8) 1).
        -- split; auto.
        -- split; [intro Hn; now apply decode_unit_not_n in Hn |].
           intros [_ Hf]. discriminate Hf.
      * rewrite decode_nano_not_F in Hunit by congruence. rewrite Hunit.
        split; [intro Hn; now apply decode_unit_not_n in Hn |].
        intros [Hm _]. congruence.
    + rewrite decode_nano_not_F in Hunit by congruence. rewrite Hunit.
      split; [intro Hn; now apply decode_unit_not_n in Hn |].
      intros [Hm _]. congruence.
  - intro HnotF. now rewrite decode_nano_not_F in Hunit.
  - intros line2 Hlen2 Hsame Hbits HnotF.
    rewrite (decode_14 line r Hlen) in Hdec.
    rewrite (decode_14 line2 r Hlen2).
    assert (Hf : forall i, i <> 8%nat -> field line2 i = field line i).
    { intros i Hi. unfold field. now rewrite Hsame. }
    rewrite (digits_agree line line2 Hlen Hlen2) by (intros; apply Hsame; lia).
    rewrite (Hf 0%nat), (Hf 6%nat), (Hf 7%nat), (Hf 9%nat), (Hf 10%nat)
      by discriminate.
    rewrite (decode_status_bits (field line 7) (field line 8) (field line 9)
               (field line2 8) Hbits).
    cbv zeta in Hdec |- *.
    rewrite <- Hmode in Hdec |- *.
    rewrite !decode_nano_not_F in Hdec |- * by exact HnotF.
    exact Hdec.
Qed.

Lemma decode_wrong_length_witness :
  decode frame_short main_logging = (Raise (wrong_length 10), main_logging) /\
  (forall e, fst (decode frame_A main_logging) = Raise e ->
             ~ FrameWrongLength e).
Proof.
  split.
  - apply (proj1 (decode_wrong_length frame_short main_logging)).
    vm_compute. discriminate.
  - apply (proj2 (decode_wrong_length frame_A main_logging)). reflexivity.
Defined.

Lemma decode_A : decode frame_A main_logging = (Return reading_A, main_logging).
Proof. vm_compute. reflexivity. Qed.

Lemma decode_C : decode frame_C main_logging = (Return reading_C, main_logging).
Proof. vm_compute. reflexivity. Qed.

Lemma decode_D : decode frame_D main_logging = (Return reading_D, main_logging).
Proof. vm_compute. reflexivity. Qed.

Lemma decode_OL :
  decode frame_OL main_logging = (Return reading_OL, main_logging).
Proof. vm_compute. reflexivity. Qed.

Lemma decode_mode_highest_bit_witness : mode reading_A = Some (mode_tag 7).
Proof.
  destruct (decode_mode_highest_bit frame_A main_logging main_logging
              reading_A eq_refl decode_A) as (_ & Hhigh & _).
  apply (Hhigh 7); [reflexivity | reflexivity | intros j Hj Hj'; lia].
Defined.

Lemma decode_unit_highest_bit_witness : unit reading_C = unit_tag 5.
Proof.
  assert (HnotF : mode reading_C <> Some (lit "F")) by discriminate.
  destruct (decode_unit_highest_bit frame_C main_logging main_logging
              reading_C eq_refl decode_C HnotF) as (_ & Hhigh & _).
  apply (Hhigh 5); [discriminate | reflexivity | reflexivity |].
  intros j Hj Hj'.
  assert (Hj6 : j = 6 \/ j = 7) by lia.
  destruct Hj6 as [-> | ->]; reflexivity.
Defined.

Lemma decode_nano_override_witness : unit reading_D = lit "n".
Proof.
  destruct (decode_nano_override frame_D main_logging main_logging
              reading_D eq_refl decode_D) as (Hnano & _).
  apply Hnano. split; reflexivity.
Defined.

(** The scan of the status bits as a fold over the documented table. *)
Lemma scan_filter (f : nat * N * str -> bool) (tbl : list (nat * N * str))
      (st : list str) :
  fold_left (fun st e => if f e then st ++ [snd e] else st) tbl st
  = st ++ map snd (filter f tbl).
Proof.
  revert st. induction tbl as [| e tbl IH]; intro st; cbn [fold_left filter].
  - cbn. now rewrite app_nil_r.
  - rewrite IH. destruct (f e); cbn [map].
    + now rewrite <- app_assoc.
    + reflexivity.
Qed.

Lemma decode_status_filter (line : bytes) :
  decode_status (field line 7) (field line 8) (field line 9)
  = map snd (filter (status_bit line) status_table).
Proof.
  change (decode_status (field line 7) (field line 8) (field line 9))
    with (fold_left
            (fun st e =>
               if truthy (N.land (field line (fst (fst e)))
                                 (2 ^ snd (fst e)))
               then st ++ [snd e] else st)
            status_table []).
  rewrite scan_filter. cbn [app]. f_equal.
  apply filter_ext. intro e. apply truthy_land.
Qed.

Lemma NoDup_map_filter {A B} (g : A -> B) (f : A -> bool) (l : list A) :
  NoDup (map g l) -> NoDup (map g (filter f l)).
Proof.
  induction l as [| x l IH]; cbn [map filter]; intro H; [constructor |].
  inversion H as [| y l' Hnotin Hnd]; subst.
  destruct (f x); cbn [map]; [| now apply IH].
  constructor; [| now apply IH].
  intro Hin. apply Hnotin.
  apply in_map_iff in Hin as (z & Hz & Hin).
  apply filter_In in Hin as [Hin _].
  apply in_map_iff. eauto.
Qed.

Lemma status_tags_distinct : NoDup (map snd status_table).
Proof.
  vm_compute.
  repeat (constructor; [cbn; intuition discriminate |]).
  constructor.
Qed.

(** Claim C10.  The status of a returned reading is the list of the tags
    of the documented table whose bit is set in the frame, in the order of
    the table; no tag occurs twice, and bits that the table does not name
    have no part in it. *)
Theorem decode_status_table
        (line : bytes) (r r' : root_logger) (rd : Reading) :
  List.length line = 14%nat ->
  decode line r = (Return rd, r') ->
  status rd = map snd (filter (status_bit line) status_table) /\
  NoDup (status rd) /\
  (forall tag,
     In tag (status rd) <->
     exists i k, In (i, k, tag) status_table
                 /\ N.testbit (field line i) k = true) /\
  (forall line2 r2 r2' rd2,
     List.length line2 = 14%nat ->
     (forall i k tag, In (i, k, tag) status_table ->
        N.testbit (field line2 i) k = N.testbit (field line i) k) ->
     decode line2 r2 = (Return rd2, r2') ->
     status rd2 = status rd).
Proof.
  intros Hlen Hdec.
  destruct (decode_Return line r r' rd Hlen Hdec) as (_ & _ & Hst & _).
  rewrite decode_status_filter in Hst. rewrite Hst.
  split; [reflexivity | split; [| split]].
  - apply NoDup_map_filter, status_tags_distinct.
  - intro tag. rewrite in_map_iff. split.
    + intros ([[i k] t] & Ht & Hin). cbn in Ht. subst t.
      apply filter_In in Hin as [Hin Hbit]. exists i, k. split; assumption.
    + intros (i & k & Hin & Hbit). exists (i, k, tag). split; [reflexivity |].
      apply filter_In. split; assumption.
  - intros line2 r2 r2' rd2 Hlen2 Hbits Hdec2.
    destruct (decode_Return line2 r2 r2' rd2 Hlen2 Hdec2)
      as (_ & _ & Hst2 & _).
    rewrite decode_status_filter in Hst2. rewrite Hst2. f_equal.
    apply filter_ext_in. intros [[i k] t] Hin. apply (Hbits i k t Hin).
Qed.

Lemma decode_status_table_witness :
  status reading_C = [lit "REL"; lit "AUTO"] /\ NoDup (status reading_C).
Proof.
  destruct (decode_status_table frame_C main_logging main_logging
              reading_C eq_refl decode_C) as (Hst & Hnd & _).
  split; [rewrite Hst; reflexivity | exact Hnd].
Defined.

(** Claim C9.  Two frames that differ at most in byte 5, byte 11 and bytes
    12-13 decode to the same result, be it a reading or an exception. *)
Theorem decode_ignores_unused_bytes (line line2 : bytes) (r : root_logger) :
  List.length line = 14%nat ->
  List.length line2 = 14%nat ->
  (forall i, i <> 5%nat -> i <> 11%nat -> i <> 12%nat -> i <> 13%nat ->
             nth i line2 x00 = nth i line x00) ->
  decode line2 r = decode line r.
Proof.
  intros Hlen Hlen2 Hsame.
  rewrite (decode_14 line r Hlen), (decode_14 line2 r Hlen2).
  assert (Hf : forall i, i <> 5%nat -> i <> 11%nat -> i <> 12%nat ->
                         i <> 13%nat -> field line2 i = field line i).
  { intros i H5 H11 H12 H13. unfold field. now rewrite Hsame. }
  rewrite (digits_agree line line2 Hlen Hlen2) by (intros; apply Hsame; lia).
  rewrite (Hf 0%nat), (Hf 6%nat), (Hf 7%nat), (Hf 8%nat), (Hf 9%nat),
    (Hf 10%nat) by discriminate.
  reflexivity.
Qed.

Lemma decode_ignores_unused_bytes_witness :
  decode frame_A_alt main_logging = decode frame_A main_logging.
Proof.
  apply decode_ignores_unused_bytes; [reflexivity | reflexivity |].
  intros i H5 H11 H12 H13.
  do 14 (destruct i as [| i]; [reflexivity || contradiction |]).
  destruct i; reflexivity.
Defined.

(** With a handler on the root logger and its level above DEBUG, as
    [main] leaves it, [logging.debug] changes nothing. *)
Lemma logging_debug_quiet msg (r : root_logger) :
  handlers r <> O -> logging_DEBUG < level r ->
  snd (logging_debug msg r) = r.
Proof.
  intros Hh Hl. unfold logging_debug.
  destruct (handlers r) as [| h] eqn:Eh; [contradiction |].
  cbn [snd]. destruct (N.leb_spec (level r) logging_DEBUG); [lia | reflexivity].
Qed.





Lemma decode_value_OL (digits : str) (decpos : Z) (sg : str) v sg' :
  decode_value digits decpos sg = Return (v, sg') ->
  (v = Str (lit "OL") <-> digits = lit "?0:?")
  /\ (v = Str (lit "OL") -> sg' = lit "").
Proof.
  unfold decode_value.
  destruct (str_eqb digits (lit "?0:?")) eqn:E.
  - apply str_eqb_eq in E. intro H. injection H as <- <-.
    split; [split; auto | auto].
  - apply str_eqb_neq in E.
    destruct (float _) as [x |]; cbn [obind]; [| discriminate].
    intro H. injection H as <- <-.
    split; [split; [discriminate | contradiction] | discriminate].
Qed.

(** Claim C1, as the code has it.  For a frame of 14 bytes whose
    decimal-position byte is an ASCII digit, [decode] returns a reading
    with the value ['OL'] exactly when the digit bytes are the bytes of
    ['?0:?'], whatever the sign byte and whichever digit byte 6 is; and a
    returned value ['OL'] always comes with the empty sign. *)
Theorem decode_over_range (line : bytes) (r : root_logger) :
  List.length line = 14%nat ->
  is_digit (field line 6) = true ->
  ((exists rd r', decode line r = (Return rd, r')
                  /\ value rd = Str (lit "OL"))
   <-> bytes_decode (getslice line 1 5) = Return (lit "?0:?")) /\
  (bytes_decode (getslice line 1 5) = Return (lit "?0:?")
   <-> getslice line 1 5 = ["?"; "0"; ":"; "?"]%byte) /\
  (forall rd r', decode line r = (Return rd, r') ->
                 value rd = Str (lit "OL") -> sign rd = lit "").
Proof.
  intros Hlen H6. split; [| split].
  - split.
    + intros (rd & r' & Hdec & Hv).
      destruct (decode_Return line r r' rd Hlen Hdec)
        as (_ & _ & _ & _ & _ & digits & Hd & Hval).
      apply decode_value_OL in Hval as [Hiff _].
      apply Hiff in Hv. now subst digits.
    + intro Hd. rewrite (decode_14 line r Hlen), Hd, H6.
      cbn. eexists. eexists. split; reflexivity.
  - rewrite bytes_decode_ascii by (repeat constructor).
    split.
    + intro H. apply map_to_N_inj. exact H.
    + intros ->. reflexivity.
  - intros rd r' Hdec Hv.
    destruct (decode_Return line r r' rd Hlen Hdec)
      as (_ & _ & _ & _ & _ & digits & Hd & Hval).
    apply decode_value_OL in Hval as [_ Hsg]. now apply Hsg.
Qed.

Lemma decode_over_range_witness :
  sign reading_OL = lit "".
Proof.
  destruct (decode_over_range frame_OL main_logging eq_refl eq_refl)
    as (_ & _ & Hsign).
  apply (Hsign reading_OL main_logging decode_OL). reflexivity.
Defined.

(** Claim C1 as stated fails: the decimal-position byte is read with
    [int] before the digits are looked at, so over-range digits with a
    byte 6 that is no digit raise ValueError. *)
Lemma decode_over_range_counterexample :
  List.length frame_OL_x = 14%nat /\
  bytes_decode (getslice frame_OL_x 1 5) = Return (lit "?0:?") /\
  decode frame_OL_x main_logging
  = (Raise (ValueError (invalid_literal_for_int (lit "x"))), main_logging).
Proof. repeat split. Qed.

Lemma double_eqb_eq (x y : double) : double_eqb x y = true -> x = y.
Proof.
  destruct x as [s | s | | s m e], y as [t | t | | t n g]; cbn;
    try discriminate; try reflexivity.
  - intro H. apply Bool.eqb_prop in H. now subst.
  - intro H. apply Bool.eqb_prop in H. now subst.
  - intro H. apply andb_true_iff in H as [H He].
    apply andb_true_iff in H as [Hs Hm].
    apply Bool.eqb_prop in Hs. apply Pos.eqb_eq in Hm. apply Z.eqb_eq in He.
    now subst.
Qed.

(** [check_digits] holds for all digits and the decimal positions 0-3,
    by computation. *)
Lemma all_digits_checked :
  forallb (fun d1 =>
  forallb (fun d2 =>
  forallb (fun d3 =>
  forallb (fun d4 =>
  forallb (check_digits d1 d2 d3 d4) four) ten) ten) ten) ten = true.
Proof. vm_compute. reflexivity. Qed.

Lemma check_digits_all (d1 d2 d3 d4 d : N) :
  In d1 ten -> In d2 ten -> In d3 ten -> In d4 ten -> In d four ->
  check_digits d1 d2 d3 d4 d = true.
Proof.
  intros I1 I2 I3 I4 I.
  pose proof (proj1 (forallb_forall _ _) all_digits_checked d1 I1) as H1.
  cbv beta in H1.
  pose proof (proj1 (forallb_forall _ _) H1 d2 I2) as H2. cbv beta in H2.
  pose proof (proj1 (forallb_forall _ _) H2 d3 I3) as H3. cbv beta in H3.
  pose proof (proj1 (forallb_forall _ _) H3 d4 I4) as H4. cbv beta in H4.
  exact (proj1 (forallb_forall _ _) H4 d I).
Qed.

Lemma is_digit_ten (c : N) :
  is_digit c = true -> In (c - 48) ten /\ c = 48 + (c - 48).
Proof.
  unfold is_digit. intro H. apply andb_true_iff in H as [Hlo Hhi].
  apply N.leb_le in Hlo, Hhi.
  assert (Hc : c - 48 = 0 \/ c - 48 = 1 \/ c - 48 = 2 \/ c - 48 = 3
               \/ c - 48 = 4 \/ c - 48 = 5 \/ c - 48 = 6 \/ c - 48 = 7
               \/ c - 48 = 8 \/ c - 48 = 9) by lia.
  split; [| lia].
  unfold ten. cbn [In].
  repeat (destruct Hc as [Hc | Hc]; [rewrite Hc; tauto |]).
  rewrite Hc. tauto.
Qed.

(** A decimal position above 3 counts as 3. *)
Lemma min3_four (d : N) : In (N.min d 3) four.
Proof.
  assert (H : N.min d 3 = 0 \/ N.min d 3 = 1 \/ N.min d 3 = 2
              \/ N.min d 3 = 3) by lia.
  unfold four. cbn [In].
  repeat (destruct H as [H | H]; [rewrite H; tauto |]).
  rewrite H. tauto.
Qed.

Lemma digits_a_min3 (text : str) (d : N) :
  digits_a text (Z.of_N d) = digits_a text (Z.of_N (N.min d 3)).
Proof.
  unfold digits_a.
  assert (Hg : (Z.of_N d >? 0)%Z = (Z.of_N (N.min d 3) >? 0)%Z).
  { rewrite !Z.gtb_ltb.
    destruct (Z.ltb_spec 0 (Z.of_N d)), (Z.ltb_spec 0 (Z.of_N (N.min d 3)));
      (reflexivity || lia). }
  assert (Hm : Z.min (Z.of_N d) 3 = Z.min (Z.of_N (N.min d 3)) 3) by lia.
  now rewrite Hg, Hm.
Qed.

Lemma decimal_literal_min3 (text : str) (d : N) :
  decimal_literal text d = decimal_literal text (N.min d 3).
Proof.
  unfold decimal_literal.
  assert (Hm : N.min (N.min d 3) 3 = N.min d 3) by lia. rewrite Hm.
  destruct (N.eqb_spec d 0), (N.eqb_spec (N.min d 3) 0);
    (reflexivity || lia).
Qed.

Lemma decimal_exponent_min3 (d : N) :
  decimal_exponent d = decimal_exponent (N.min d 3).
Proof.
  unfold decimal_exponent.
  assert (Hm : N.min (N.min d 3) 3 = N.min d 3) by lia. rewrite Hm.
  destruct (N.eqb_spec d 0), (N.eqb_spec (N.min d 3) 0);
    (reflexivity || lia).
Qed.

(** [float] on the text of four digits and a decimal position. *)
Lemma float_digits (c1 c2 c3 c4 d : N) :
  is_digit c1 = true -> is_digit c2 = true ->
  is_digit c3 = true -> is_digit c4 = true ->
  let text := [c1; c2; c3; c4] in
  let x := decimal_to_double false (digits_number text) (decimal_exponent d) in
  float (join (lit "") (digits_a text (Z.of_N d))) = Return x
  /\ float (decimal_literal text d) = Return x.
Proof.
  intros H1 H2 H3 H4.
  apply is_digit_ten in H1 as [I1 E1], H2 as [I2 E2], H3 as [I3 E3],
    H4 as [I4 E4].
  pose proof (check_digits_all _ _ _ _ _ I1 I2 I3 I4 (min3_four d)) as Hall.
  unfold check_digits in Hall.
  rewrite <- E1, <- E2, <- E3, <- E4 in Hall.
  cbv zeta.
  rewrite digits_a_min3, decimal_literal_min3, decimal_exponent_min3.
  destruct (float (join _ _)) as [x |]; [| discriminate Hall].
  destruct (float (decimal_literal _ _)) as [y |]; [| discriminate Hall].
  apply andb_true_iff in Hall as [Hx Hy].
  apply double_eqb_eq in Hx, Hy. now subst.
Qed.

(** Claim C3.  For a frame of 14 bytes whose digit bytes are four ASCII
    digits and whose decimal-position byte is the ASCII digit [d],
    [decode] returns a reading with the sign byte as its sign and, as its
    value, [float] of the four digits with a decimal point at index
    [min(d, 3)] when [0 < d] and none when [d = 0]: the double nearest the
    number of the digits times ten to the power [min(d, 3) - 4], or the
    number itself when [d = 0]. *)
Theorem decode_decimal_point (line : bytes) (r : root_logger) :
  List.length line = 14%nat ->
  Forall (fun b => is_digit (Byte.to_N b) = true) (getslice line 1 5) ->
  is_digit (field line 6) = true ->
  let text := map Byte.to_N (getslice line 1 5) in
  let d := field line 6 - 48 in
  exists x rd r',
    decode line r = (Return rd, r') /\
    value rd = Float x /\
    sign rd = [field line 0] /\
    float (decimal_literal text d) = Return x /\
    x = decimal_to_double false (digits_number text) (decimal_exponent d).
Proof.
  intros Hlen Hdig H6.
  rewrite (decode_14 line r Hlen), H6.
  destruct (frame_14 line Hlen)
    as (b0 & b1 & b2 & b3 & b4 & b5 & b6 & b7 & b8 & b9 & b10 & b11 & b12
        & b13 & ->).
  unfold field in *. cbn [nth getslice skipn firstn Nat.sub map] in *.
  inversion Hdig as [| ? ? H1 Hdig1]; subst.
  inversion Hdig1 as [| ? ? H2 Hdig2]; subst.
  inversion Hdig2 as [| ? ? H3 Hdig3]; subst.
  inversion Hdig3 as [| ? ? H4 _]; subst.
  destruct (float_digits _ _ _ _ (Byte.to_N b6 - 48) H1 H2 H3 H4)
    as [Hjoin Hlit].
  cbv zeta in Hjoin, Hlit.
  assert (Hutf : bytes_decode [b1; b2; b3; b4]
                 = Return (map Byte.to_N [b1; b2; b3; b4])).
  { apply bytes_decode_ascii; [| reflexivity].
    cbn [map]. unfold is_digit in H1, H2, H3, H4.
    apply andb_true_iff in H1 as [_ H1], H2 as [_ H2], H3 as [_ H3],
      H4 as [_ H4].
    apply N.leb_le in H1, H2, H3, H4.
    repeat constructor; lia. }
  rewrite Hutf. cbn [map].
  unfold decode_value.
  destruct (str_eqb _ (lit "?0:?")) eqn:E.
  { apply str_eqb_eq in E. injection E as E1 _. rewrite E1 in H1.
    discriminate H1. }
  rewrite Hjoin. cbn [obind]. cbv zeta.
  eexists. eexists. eexists.
  split; [reflexivity |]. cbn [value sign].
  split; [reflexivity |]. split; [reflexivity |].
  split; [exact Hlit | reflexivity].
Qed.

(** Digits ["1234"] with decimal position 2 give 12.34, that is the
    double [6946802425218990 * 2^-49]. *)
Lemma decode_decimal_point_witness :
  exists rd r',
    decode frame_A main_logging = (Return rd, r')
    /\ value rd = Float (S754_finite false 6946802425218990 (-49)).
Proof.
  assert (Hdig : Forall (fun b => is_digit (Byte.to_N b) = true)
                        (getslice frame_A 1 5))
    by (repeat constructor).
  destruct (decode_decimal_point frame_A main_logging eq_refl Hdig eq_refl)
    as (x & rd & r' & Hdec & Hv & _ & _ & Hx).
  exists rd, r'. split; [exact Hdec |].
  rewrite Hv, Hx. reflexivity.
Defined.






(** Not only four digits are read: the digit bytes [' 123'] are neither the
    sentinel nor four digits, and [float] reads them as 123.0. *)
Lemma decode_frame_blank :
  List.length frame_blank = 14%nat /\
  getslice frame_blank 1 5 = [" "; "1"; "2"; "3"]%byte /\
  decode frame_blank main_logging = (Return reading_blank, main_logging).
Proof. repeat split. Qed.




(** A reading is returned for frames of 14 bytes only. *)
Lemma decode_Return_length (line : bytes) (r r' : root_logger) (rd : Reading) :
  decode line r = (Return rd, r') -> List.length line = 14%nat.
Proof.
  unfold decode. destruct (Nat.eqb_spec (List.length line) 14) as [H | H].
  - intros _. exact H.
  - cbn [negb]. unfold raise. discriminate.
Qed.

(** Property X2.  The errors of a frame of 14 bytes come in the order of
    the reads: digit bytes that are no UTF-8 text raise UnicodeDecodeError
    whatever the decimal-position byte is, and with digit bytes that are
    UTF-8 text a decimal-position byte that is no ASCII digit raises the
    ValueError of [int] on that character, whatever the digits are, the
    over-range sentinel included.  The ValueError of [int] is raised in no
    other case, and the logger is left as it was. *)
Theorem decode_error_order (line : bytes) (r : root_logger) :
  List.length line = 14%nat ->
  (forall e, bytes_decode (getslice line 1 5) = Raise e ->
     decode line r = (Raise (UnicodeDecodeError (getslice line 1 5)), r)) /\
  (forall digits, bytes_decode (getslice line 1 5) = Return digits ->
     is_digit (field line 6) = false ->
     decode line r
     = (Raise (ValueError (invalid_literal_for_int [field line 6])), r)) /\
  ((exists e, fst (decode line r) = Raise e /\ InvalidDecimalPosition e) <->
   (exists digits, bytes_decode (getslice line 1 5) = Return digits)
   /\ is_digit (field line 6) = false).
Proof.
  intro Hlen. rewrite (decode_14 line r Hlen).
  unfold bytes_decode.
  destruct (utf8 (map Byte.to_N (getslice line 1 5))) as [digits |].
  - split; [intros e H; discriminate H | split].
    + intros d _ H6. rewrite H6. reflexivity.
    + destruct (is_digit (field line 6)).
      * split.
        -- intros (e & He & s & Hs). subst e.
           destruct (decode_value _ _ _) as [[v sg] | e] eqn:Hv;
             cbn [fst] in He; [discriminate He |].
           apply decode_value_Raise in Hv as [s' ->]. discriminate He.
        -- intros [_ H]. discriminate H.
      * split; [intros _; eauto |].
        intros _. eexists. split; [reflexivity |]. eexists. reflexivity.
  - split; [reflexivity | split].
    + intros d H. discriminate H.
    + split.
      * intros (e & He & s & Hs). subst e. discriminate He.
      * intros [[d H] _]. discriminate H.
Qed.

Lemma decode_error_order_witness :
  decode frame_OL_x main_logging
  = (Raise (ValueError (invalid_literal_for_int (lit "x"))), main_logging).
Proof.
  destruct (decode_error_order frame_OL_x main_logging eq_refl)
    as (_ & Hint & _).
  apply (Hint (lit "?0:?")); reflexivity.
Defined.

(** Property X3.  The handler of [IndexError] is never entered: whatever
    the input and the logger, [decode] raises neither the exception
    ['Invalid line (...)'] nor an [IndexError]. *)
Theorem decode_never_invalid_line (line : bytes) (r : root_logger) (e : exn) :
  fst (decode line r) = Raise e ->
  (forall ex, e <> invalid_line ex) /\ (forall args, e <> IndexError args).
Proof.
  destruct (Nat.eq_dec (List.length line) 14) as [Hlen | Hlen].
  - rewrite (decode_14 line r Hlen). unfold bytes_decode.
    destruct (utf8 _) as [digits |].
    + destruct (is_digit _).
      * destruct (decode_value _ _ _) as [[v sg] | e'] eqn:Hv; cbn [fst].
        -- discriminate.
        -- apply decode_value_Raise in Hv as [s ->].
           intro H. injection H as <-. split; discriminate.
      * cbn [fst]. intro H. injection H as <-. split; discriminate.
    + cbn [fst]. intro H. injection H as <-. split; discriminate.
  - unfold decode. destruct (Nat.eqb_spec (List.length line) 14) as [H | _];
      [contradiction |].
    cbn [negb fst raise]. intro H. injection H as <-.
    split; [| discriminate].
    intros ex H. unfold wrong_length, invalid_line in H.
    injection H as H. cbn in H. discriminate H.
Qed.

Lemma decode_never_invalid_line_witness :
  (forall ex, wrong_length 10 <> invalid_line ex)
  /\ (forall args, wrong_length 10 <> IndexError args).
Proof.
  apply (decode_never_invalid_line frame_short main_logging). reflexivity.
Defined.



Lemma decode_unit_cases (b : N) :
  In (decode_unit b) [lit ""; lit "M"; lit "k"; lit "m"; micro].
Proof.
  bits_of b.
  destruct (N.testbit b 7), (N.testbit b 6), (N.testbit b 5),
    (N.testbit b 4); cbn; tauto.
Qed.

Lemma decode_mode_cases (b : N) :
  In (decode_mode b)
     [None; Some degree_F; Some degree_C; Some (lit "F"); Some (lit "Hz");
      Some (lit "hFE"); Some Ohm; Some (lit "A"); Some (lit "V")].
Proof.
  bits_of b.
  destruct (N.testbit b 7); [cbn; tauto |].
  destruct (N.testbit b 6); [cbn; tauto |].
  destruct (N.testbit b 5); [cbn; tauto |].
  destruct (N.testbit b 4); [cbn; tauto |].
  destruct (N.testbit b 3); [cbn; tauto |].
  destruct (N.testbit b 2); [cbn; tauto |].
  destruct (N.testbit b 1); [cbn; tauto |].
  destruct (N.testbit b 0); cbn; tauto.
Qed.

(** Property X5.  The vocabulary of a returned reading: the unit is one
    of the six prefixes, the mode is [None] or one of the eight modes, the
    status holds at most 13 tags, all of the documented table, and the
    value is the text ['OL'] or a [float]. *)
Theorem decode_vocabulary (line : bytes) (r r' : root_logger) (rd : Reading) :
  decode line r = (Return rd, r') ->
  In (unit rd) [lit ""; lit "M"; lit "k"; lit "m"; micro; lit "n"] /\
  In (mode rd)
     [None; Some degree_F; Some degree_C; Some (lit "F"); Some (lit "Hz");
      Some (lit "hFE"); Some Ohm; Some (lit "A"); Some (lit "V")] /\
  incl (status rd) (map snd status_table) /\
  (List.length (status rd) <= 13)%nat /\
  (value rd = Str (lit "OL") \/ exists x, value rd = Float x).
Proof.
  intro Hdec.
  pose proof (decode_Return_length line r r' rd Hdec) as Hlen.
  destruct (decode_Return line r r' rd Hlen Hdec)
    as (Hmode & Hunit & Hst & _ & _ & digits & _ & Hval).
  split; [| split; [| split; [| split]]].
  - rewrite Hunit. unfold decode_nano.
    pose proof (decode_unit_cases (field line 9)) as Hu.
    assert (Hin : forall u, In u [lit ""; lit "M"; lit "k"; lit "m"; micro] ->
                            In u [lit ""; lit "M"; lit "k"; lit "m"; micro;
                                  lit "n"]).
    { intros u H. cbn [In] in *. tauto. }
    destruct (mode rd) as [m |]; [| now apply Hin].
    destruct (str_eqb m (lit "F")); [| now apply Hin].
    unfold assign_if. destruct (truthy _); [| now apply Hin].
    cbn [In]. tauto.
  - rewrite Hmode. apply decode_mode_cases.
  - rewrite Hst, decode_status_filter. intros tag Hin.
    apply in_map_iff in Hin as (e & <- & Hin).
    apply filter_In in Hin as [Hin _]. now apply in_map.
  - rewrite Hst, decode_status_filter, length_map.
    apply (filter_length_le (status_bit line) status_table).
  - unfold decode_value in Hval.
    destruct (str_eqb digits (lit "?0:?")).
    + injection Hval as <- _. now left.
    + destruct (float _) as [x |]; cbn [obind] in Hval; [| discriminate].
      injection Hval as <- _. right. eauto.
Qed.

Lemma decode_vocabulary_witness :
  In (unit reading_D) [lit ""; lit "M"; lit "k"; lit "m"; micro; lit "n"].
Proof.
  exact (proj1 (decode_vocabulary frame_D main_logging main_logging
                  reading_D decode_D)).
Defined.

(** Property X6.  A decimal position above 3 counts as 3: two frames of
    14 bytes that differ only in byte 6, which holds an ASCII digit from
    ['3'] on in both, decode to the same result, whatever the digit bytes
    are. *)
Theorem decode_decimal_position_clamp (line line2 : bytes) (r : root_logger) :
  List.length line = 14%nat ->
  List.length line2 = 14%nat ->
  (forall i, i <> 6%nat -> nth i line2 x00 = nth i line x00) ->
  is_digit (field line 6) = true -> 51 <= field line 6 ->
  is_digit (field line2 6) = true -> 51 <= field line2 6 ->
  decode line2 r = decode line r.
Proof.
  intros Hlen Hlen2 Hsame H6 H3 H6' H3'.
  rewrite (decode_14 line r Hlen), (decode_14 line2 r Hlen2), H6, H6'.
  assert (Hf : forall i, i <> 6%nat -> field line2 i = field line i).
  { intros i Hi. unfold field. now rewrite Hsame. }
  rewrite (digits_agree line line2 Hlen Hlen2) by (intros; apply Hsame; lia).
  rewrite (Hf 0%nat), (Hf 7%nat), (Hf 8%nat), (Hf 9%nat), (Hf 10%nat)
    by discriminate.
  destruct (bytes_decode (getslice line 1 5)) as [digits |]; [| reflexivity].
  unfold decode_value.
  rewrite (digits_a_min3 digits (field line 6 - 48)),
    (digits_a_min3 digits (field line2 6 - 48)).
  replace (N.min (field line2 6 - 48) 3) with (N.min (field line 6 - 48) 3)
    by lia.
  reflexivity.
Qed.

Lemma decode_decimal_position_clamp_witness :
  decode frame_A_9 main_logging = decode frame_A_3 main_logging.
Proof.
  apply decode_decimal_position_clamp;
    try reflexivity; try (cbv; discriminate).
  intros i Hi.
  do 14 (destruct i as [| i]; [reflexivity || contradiction |]).
  destruct i; reflexivity.
Defined.

(** Property X7.  The sign byte is copied, not interpreted: the sign of
    a returned reading is the character of byte 0, whatever it is, unless
    the value is the over-range text, and a frame that differs in byte 0
    only decodes to the same reading but for that character. *)
Theorem decode_sign_byte
        (line line2 : bytes) (r r' : root_logger) (rd : Reading) :
  List.length line = 14%nat ->
  List.length line2 = 14%nat ->
  (forall i, i <> 0%nat -> nth i line2 x00 = nth i line x00) ->
  decode line r = (Return rd, r') ->
  sign rd = match value rd with
            | Str _ => lit ""
            | Float _ => [field line 0]
            end /\
  fst (decode line2 r)
  = Return (mkReading match value rd with
                      | Str _ => lit ""
                      | Float _ => [field line2 0]
                      end
                      (value rd) (unit rd) (mode rd) (status rd)).
Proof.
  intros Hlen Hlen2 Hsame Hdec.
  rewrite (decode_14 line r Hlen) in Hdec.
  rewrite (decode_14 line2 r Hlen2).
  assert (Hf : forall i, i <> 0%nat -> field line2 i = field line i).
  { intros i Hi. unfold field. now rewrite Hsame. }
  rewrite (digits_agree line line2 Hlen Hlen2) by (intros; apply Hsame; lia).
  rewrite (Hf 6%nat), (Hf 7%nat), (Hf 8%nat), (Hf 9%nat), (Hf 10%nat)
    by discriminate.
  destruct (bytes_decode (getslice line 1 5)) as [digits |];
    [| discriminate Hdec].
  destruct (is_digit (field line 6)); [| discriminate Hdec].
  unfold decode_value in *.
  destruct (str_eqb digits (lit "?0:?")).
  - cbv zeta in Hdec |- *. injection Hdec as <- _. cbn. split; reflexivity.
  - destruct (float _) as [x |]; cbn [obind] in Hdec |- *;
      [| discriminate Hdec].
    cbv zeta in Hdec |- *. injection Hdec as <- _. cbn. split; reflexivity.
Qed.

Lemma decode_sign_byte_witness :
  fst (decode frame_A_minus main_logging)
  = Return (mkReading (lit "-") (value reading_A) (unit reading_A)
              (mode reading_A) (status reading_A)).
Proof.
  refine (proj2 (decode_sign_byte frame_A frame_A_minus main_logging
                   main_logging reading_A eq_refl eq_refl _ decode_A)).
  intros i Hi.
  do 14 (destruct i as [| i]; [reflexivity || contradiction |]).
  destruct i; reflexivity.
Defined.

(** The sign that is given to the rounding is the sign of its result. *)
Lemma binary_round_aux_not_negative (mx ex : Z) (lx : location) :
  SFltb (binary_round_aux prec emax false mx ex lx) (S754_zero false) = false.
Proof.
  unfold binary_round_aux.
  destruct (shr_fexp prec emax mx ex lx) as [mrs' e'].
  destruct (shr_fexp prec emax _ e' loc_Exact) as [mrs'' e''].
  destruct (shr_m mrs''); [reflexivity | | reflexivity].
  destruct (Z.leb e'' (emax - prec)); reflexivity.
Qed.

Lemma decimal_to_double_not_negative (m : N) (e : Z) :
  SFltb (decimal_to_double false m e) (S754_zero false) = false.
Proof.
  unfold decimal_to_double. destruct m as [| p]; [reflexivity |].
  destruct (0 <=? e)%Z.
  - unfold binary_round. destruct (shl_align _ _ _) as [mz ez].
    apply binary_round_aux_not_negative.
  - destruct (SFdiv_core_binary _ _ _ _ _ _) as [[q e'] l].
    apply binary_round_aux_not_negative.
Qed.

(** Property X8.  The sign is not applied to the value: for a frame of 14
    bytes with four ASCII digits and an ASCII digit as decimal position,
    the returned value is a [float] that is not below zero, whatever the
    sign byte is. *)
Theorem decode_value_not_negative (line : bytes) (r : root_logger) :
  List.length line = 14%nat ->
  Forall (fun b => is_digit (Byte.to_N b) = true) (getslice line 1 5) ->
  is_digit (field line 6) = true ->
  exists x rd r',
    decode line r = (Return rd, r') /\
    value rd = Float x /\
    SFltb x (S754_zero false) = false.
Proof.
  intros Hlen Hdig H6.
  rewrite (decode_14 line r Hlen), H6.
  destruct (frame_14 line Hlen)
    as (b0 & b1 & b2 & b3 & b4 & b5 & b6 & b7 & b8 & b9 & b10 & b11 & b12
        & b13 & ->).
  unfold field in *. cbn [nth getslice skipn firstn Nat.sub map] in *.
  inversion Hdig as [| ? ? H1 Hdig1]; subst.
  inversion Hdig1 as [| ? ? H2 Hdig2]; subst.
  inversion Hdig2 as [| ? ? H3 Hdig3]; subst.
  inversion Hdig3 as [| ? ? H4 _]; subst.
  destruct (float_digits _ _ _ _ (Byte.to_N b6 - 48) H1 H2 H3 H4)
    as [Hjoin _].
  cbv zeta in Hjoin.
  assert (Hutf : bytes_decode [b1; b2; b3; b4]
                 = Return (map Byte.to_N [b1; b2; b3; b4])).
  { apply bytes_decode_ascii; [| reflexivity].
    cbn [map]. unfold is_digit in H1, H2, H3, H4.
    apply andb_true_iff in H1 as [_ H1], H2 as [_ H2], H3 as [_ H3],
      H4 as [_ H4].
    apply N.leb_le in H1, H2, H3, H4.
    repeat constructor; lia. }
  rewrite Hutf. cbn [map].
  unfold decode_value.
  destruct (str_eqb _ (lit "?0:?")) eqn:E.
  { apply str_eqb_eq in E. injection E as E1 _. rewrite E1 in H1.
    discriminate H1. }
  rewrite Hjoin. cbn [obind]. cbv zeta.
  eexists. eexists. eexists.
  split; [reflexivity |]. cbn [value].
  split; [reflexivity |]. apply decimal_to_double_not_negative.
Qed.

Lemma decode_value_not_negative_witness :
  exists x rd r',
    decode frame_A_minus main_logging = (Return rd, r') /\
    value rd = Float x /\
    SFltb x (S754_zero false) = false.
Proof.
  apply decode_value_not_negative; [reflexivity | | reflexivity].
  repeat constructor.
Defined.

End PT2025_Spec.

(** ** The loop of [main]: properties *)

Module Main_Spec.
Import Py PyFacts PT2025 PT2025_Spec Main.

Local Open Scope N_scope.

(** A call of [decode] that raises leaves the root logger as it was. *)
Lemma decode_Raise_root (line : bytes) (r r' : root_logger) (ex : exn) :
  decode line r = (Raise ex, r') -> r' = r.
Proof.
  intro Hdec.
  destruct (Nat.eq_dec (List.length line) 14) as [Hlen | Hlen].
  - rewrite (decode_14 line r Hlen) in Hdec.
    destruct (bytes_decode _) as [digits | e1]; [| now injection Hdec].
    destruct (is_digit _); [| now injection Hdec].
    destruct (decode_value _ _ _) as [[v sg] | e2];
      [discriminate Hdec | now injection Hdec].
  - unfold decode in Hdec.
    destruct (Nat.eqb_spec (List.length line) 14) as [H | _];
      [contradiction |].
    cbn [negb raise] in Hdec. now injection Hdec.
Qed.

(** A call of [decode] that returns leaves a root logger with a handler
    and a level above DEBUG as it was. *)
Lemma decode_Return_root (line : bytes) (r r' : root_logger) (rd : Reading) :
  handlers r <> O -> logging_DEBUG < level r ->
  decode line r = (Return rd, r') -> r' = r.
Proof.
  intros Hh Hl Hdec.
  pose proof (decode_Return_length line r r' rd Hdec) as Hlen.
  destruct (decode_Return line r r' rd Hlen Hdec)
    as (_ & _ & _ & _ & Hr & _).
  rewrite Hr. now apply logging_debug_quiet.
Qed.

Lemma world_eta (w : world) :
  mkWorld (root w) (records w) (stdout w) (slept w) = w.
Proof. now destruct w. Qed.

Lemma logging_log_handled (levelno : N) (msg : payload) (w : world) :
  handlers (root w) <> O ->
  logging_log levelno msg w
  = mkWorld (root w)
            (if level (root w) <=? levelno
             then records w ++ [(levelno, msg)] else records w)
            (stdout w) (slept w).
Proof.
  intro Hh. unfold logging_log.
  destruct (handlers (root w)); [contradiction | reflexivity].
Qed.

Section Rendering.

Variable float_repr : double -> str.
Variable list_repr : list str -> str.
Variable sleep_raises : double -> bool.

Local Abbreviation iteration := (iteration float_repr list_repr sleep_raises).
Local Abbreviation loop := (loop float_repr list_repr sleep_raises).
Local Abbreviation printed_line := (printed_line float_repr list_repr).
Local Abbreviation tick_lines := (tick_lines float_repr list_repr).
Local Abbreviation print_returns := (print_returns float_repr list_repr).
Local Abbreviation sleep := (sleep sleep_raises).

(** A turn of the loop on a frame that [decode] reads. *)
Lemma iteration_Return (arguments : Arguments) (t : tick) (w : world)
      (line : bytes) (rd : Reading) (r' : root_logger) :
  readline t = Some line ->
  decode line (root w) = (Return rd, r') ->
  iteration arguments t w =
  match print t (printed_line arguments t rd)
              (mkWorld r' (records w) (stdout w) (slept w)) with
  | (Crash c, w1) => (Crash c, w1)
  | (Next, w1) =>
    match float (sleep_after_read arguments) with
    | Raise ex => (Crash (Uncaught ex), w1)
    | Return x => if float_truthy x then sleep x w1 else (Next, w1)
    end
  end.
Proof.
  intros Hread Hdec. unfold Main.iteration, Main.printed_line, printed_data.
  rewrite Hread, Hdec.
  destruct (print_isoformattime arguments), (print_epoch arguments),
    (as_json arguments); cbv zeta;
    (destruct (float (sleep_after_read arguments)) as [x | ex];
     [destruct (float_truthy x) |]); reflexivity.
Qed.

(** A turn of the loop on a frame that [decode] reads, when [print]
    returns. *)
Lemma iteration_printed (arguments : Arguments) (t : tick) (w : world)
      (line : bytes) (rd : Reading) (r' : root_logger) :
  readline t = Some line ->
  decode line (root w) = (Return rd, r') ->
  print_raises t (printed_line arguments t rd) = false ->
  iteration arguments t w =
  let w1 :=
    mkWorld r' (records w) (stdout w ++ [printed_line arguments t rd])
            (slept w) in
  match float (sleep_after_read arguments) with
  | Raise ex => (Crash (Uncaught ex), w1)
  | Return x => if float_truthy x then sleep x w1 else (Next, w1)
  end.
Proof.
  intros Hread Hdec Hp.
  rewrite (iteration_Return arguments t w line rd r' Hread Hdec).
  unfold print. rewrite Hp. reflexivity.
Qed.

(** A turn of the loop on a frame that [decode] reads, when [print]
    raises. *)
Lemma iteration_print_raises (arguments : Arguments) (t : tick) (w : world)
      (line : bytes) (rd : Reading) (r' : root_logger) :
  readline t = Some line ->
  decode line (root w) = (Return rd, r') ->
  print_raises t (printed_line arguments t rd) = true ->
  iteration arguments t w
  = (Crash (Raised_by_print (printed_line arguments t rd)),
     mkWorld r' (records w) (stdout w) (slept w)).
Proof.
  intros Hread Hdec Hp.
  rewrite (iteration_Return arguments t w line rd r' Hread Hdec).
  unfold print. rewrite Hp. reflexivity.
Qed.

(** A turn of the loop on a frame that [decode] rejects. *)
Lemma iteration_Raise (arguments : Arguments) (t : tick) (w : world)
      (line : bytes) (ex : exn) :
  readline t = Some line ->
  fst (decode line (root w)) = Raise ex ->
  iteration arguments t w = (Next, logging_log logging_WARNING (Args ex) w).
Proof.
  intros Hread Hdec. unfold Main.iteration. rewrite Hread.
  destruct (decode line (root w)) as [[rd | ex'] r'] eqn:E;
    cbn [fst] in Hdec; [discriminate Hdec |].
  injection Hdec as ->.
  apply decode_Raise_root in E. subst r'. now rewrite world_eta.
Qed.

(** Property X9.  A frame that [decode] rejects costs one warning and
    nothing else: with a handler on the root logger and a level that lets
    WARNING through, as [main] sets it up, the turn hands the [args] of the
    exception to the handlers, prints nothing, does not sleep, and the
    loop goes on.  For a line that is not 14 bytes long, the empty line of
    a time-out included, the exception is the one of the wrong length. *)
Theorem iteration_undecodable (arguments : Arguments) (t : tick) (w : world)
        (line : bytes) (ex : exn) :
  readline t = Some line ->
  fst (decode line (root w)) = Raise ex ->
  handlers (root w) <> O ->
  level (root w) <= logging_WARNING ->
  iteration arguments t w
  = (Next,
     mkWorld (root w) (records w ++ [(logging_WARNING, Args ex)])
             (stdout w) (slept w))
  /\ (List.length line <> 14%nat -> ex = wrong_length (List.length line)).
Proof.
  intros Hread Hdec Hh Hl. split.
  - rewrite (iteration_Raise arguments t w line ex Hread Hdec).
    rewrite logging_log_handled by exact Hh.
    destruct (N.leb_spec (level (root w)) logging_WARNING); [reflexivity | lia].
  - intro Hlen. unfold decode in Hdec.
    destruct (Nat.eqb_spec (List.length line) 14) as [H | _];
      [contradiction |].
    cbn in Hdec. now injection Hdec.
Qed.

(** The only exceptions that leave a turn come from [print] and from
    [--sleep], after a frame was read. *)
Lemma iteration_Crash (arguments : Arguments) (t : tick) (w : world)
      (c : crash) :
  fst (iteration arguments t w) = Crash c ->
  exists line rd r',
    readline t = Some line /\ decode line (root w) = (Return rd, r') /\
    ((c = Raised_by_print (printed_line arguments t rd)
      /\ print_raises t (printed_line arguments t rd) = true)
     \/ (exists ex, c = Uncaught ex
                    /\ float (sleep_after_read arguments) = Raise ex)
     \/ (exists x, c = Raised_by_sleep x
                   /\ float (sleep_after_read arguments) = Return x
                   /\ float_truthy x = true /\ sleep_raises x = true)).
Proof.
  destruct (readline t) as [line |] eqn:Hread.
  - destruct (decode line (root w)) as [[rd | ex] r'] eqn:Hdec.
    + intro H. exists line, rd, r'.
      split; [reflexivity | split; [exact Hdec |]].
      destruct (print_raises t (printed_line arguments t rd)) eqn:Hp.
      { rewrite (iteration_print_raises arguments t w line rd r' Hread Hdec Hp)
          in H.
        cbn [fst] in H. injection H as <-. left. split; reflexivity. }
      rewrite (iteration_printed arguments t w line rd r' Hread Hdec Hp) in H.
      cbv zeta in H. right.
      destruct (float (sleep_after_read arguments)) as [x | ex].
      * destruct (float_truthy x) eqn:Ht; [| cbn [fst] in H; discriminate H].
        unfold Main.sleep in H.
        destruct (sleep_raises x) eqn:Hs; cbn [fst] in H; [| discriminate H].
        injection H as <-. right. eauto.
      * cbn [fst] in H. injection H as <-. left. eauto.
    + rewrite (iteration_Raise arguments t w line ex Hread);
        [discriminate | now rewrite Hdec].
  - unfold Main.iteration. rewrite Hread. discriminate.
Qed.

(** Property X10.  The branches of the loop that test the dictionary are
    never taken: whatever the arguments, the environment and the state, a
    turn ends with the next turn or with an exception of [print] or of
    [--sleep] after a frame was read (never with the [TypeError] of
    [join] or a [KeyError]), and the record ['No data!'] of the test for
    the key ['value'] is never logged. *)
Theorem iteration_dead_branches (arguments : Arguments) (t : tick)
        (w : world) :
  fst (iteration arguments t w) <> Crash TypeError_join /\
  fst (iteration arguments t w) <> Crash KeyError_status /\
  exists new,
    records (snd (iteration arguments t w)) = records w ++ new /\
    ~ In (logging_ERROR, Message (lit "No data!")) new.
Proof.
  split; [| split].
  - intro H. apply iteration_Crash in H
      as (line & rd & r' & _ & _
          & [[H _] | [(ex & H & _) | (x & H & _)]]);
      discriminate H.
  - intro H. apply iteration_Crash in H
      as (line & rd & r' & _ & _
          & [[H _] | [(ex & H & _) | (x & H & _)]]);
      discriminate H.
  - destruct (readline t) as [line |] eqn:Hread.
    + destruct (decode line (root w)) as [[rd | ex] r'] eqn:Hdec.
      * rewrite (iteration_Return arguments t w line rd r' Hread Hdec).
        exists []. rewrite app_nil_r. split; [| intros []].
        unfold print. destruct (print_raises t _); [reflexivity |].
        destruct (float (sleep_after_read arguments)) as [x | ex];
          [| reflexivity].
        destruct (float_truthy x); [| reflexivity].
        unfold Main.sleep. destruct (sleep_raises x); reflexivity.
      * rewrite (iteration_Raise arguments t w line ex Hread)
          by now rewrite Hdec.
        unfold logging_log. cbn [snd records].
        destruct (level _ <=? logging_WARNING).
        -- eexists. split; [reflexivity |].
           intros [H | []]. discriminate H.
        -- exists []. rewrite app_nil_r. split; [reflexivity | intros []].
    + unfold Main.iteration. rewrite Hread.
      unfold logging_log, sleep_1. cbn [snd records].
      destruct (level _ <=? logging_ERROR).
      * eexists. split; [reflexivity |].
        intros [H | []]. discriminate H.
      * exists []. rewrite app_nil_r. split; [reflexivity | intros []].
Qed.


(** The reading that [decode] returns does not depend on the logger. *)
Lemma decode_fst_root (line : bytes) (r r0 : root_logger) :
  fst (decode line r) = fst (decode line r0).
Proof.
  destruct (Nat.eq_dec (List.length line) 14) as [Hlen | Hlen].
  - rewrite (decode_14 line r Hlen), (decode_14 line r0 Hlen).
    destruct (bytes_decode _); [| reflexivity].
    destruct (is_digit _); [| reflexivity].
    destruct (decode_value _ _ _) as [[v sg] |]; reflexivity.
  - unfold decode.
    destruct (Nat.eqb_spec (List.length line) 14) as [H | _];
      [contradiction | reflexivity].
Qed.

(** A turn of the loop, with the logger as [main] sets it up, a [print]
    that returns and a [--sleep] that reads as [x]. *)
Lemma iteration_step (arguments : Arguments) (t : tick) (w : world)
      (x : double) :
  handlers (root w) <> O ->
  logging_DEBUG < level (root w) ->
  level (root w) <= logging_WARNING ->
  float (sleep_after_read arguments) = Return x ->
  (float_truthy x = true -> sleep_raises x = false) ->
  print_returns arguments (root w) t ->
  iteration arguments t w
  = (Next,
     mkWorld (root w)
             (records w ++ tick_records (root w) t)
             (stdout w ++ tick_lines arguments (root w) t)
             (slept w ++ tick_sleeps x (root w) t)).
Proof.
  intros Hh Hd Hl Hx Hs Hp. unfold Main.print_returns in Hp. revert Hp.
  unfold tick_records, Main.tick_lines, tick_sleeps, decodable.
  destruct (readline t) as [line |] eqn:Hread.
  - destruct (decode line (root w)) as [[rd | ex] r'] eqn:Hdec.
    + cbn [fst andb]. intro Hp.
      rewrite (iteration_printed arguments t w line rd r' Hread Hdec)
        by (apply Hp; now left).
      cbv zeta. rewrite Hx.
      apply decode_Return_root in Hdec; [| assumption | assumption].
      subst r'. rewrite app_nil_r.
      destruct (float_truthy x) eqn:Ht.
      * unfold Main.sleep. rewrite (Hs eq_refl). reflexivity.
      * now rewrite app_nil_r.
    + intros _.
      rewrite (iteration_Raise arguments t w line ex Hread)
        by now rewrite Hdec.
      rewrite logging_log_handled by exact Hh. cbn [fst].
      destruct (N.leb_spec (level (root w)) logging_WARNING); [| lia].
      now rewrite !app_nil_r.
  - intros _. unfold Main.iteration. rewrite Hread.
    rewrite logging_log_handled by exact Hh.
    destruct (N.leb_spec (level (root w)) logging_ERROR);
      [| unfold logging_ERROR, logging_WARNING in *; lia].
    unfold sleep_1. cbn. now rewrite app_nil_r.
Qed.

(** Property X12.  The loop prints the readings of the frames that
    [decode] reads, one line each and in the order of arrival, and skips
    the others with one record each: with the logger as [main] sets it
    up, a [print] that returns on each of these lines and a [--sleep] that
    reads as a number which [sleep] takes, the loop does not end with an
    exception, and after any number of turns the output, the records and
    the calls of [sleep] are those of the single turns, one after the
    other. *)
Theorem loop_prints_decodable (arguments : Arguments) (ticks : list tick)
        (w : world) (x : double) :
  handlers (root w) <> O ->
  logging_DEBUG < level (root w) ->
  level (root w) <= logging_WARNING ->
  float (sleep_after_read arguments) = Return x ->
  (float_truthy x = true -> sleep_raises x = false) ->
  (forall t, In t ticks -> print_returns arguments (root w) t) ->
  loop arguments ticks w
  = (Next,
     mkWorld (root w)
             (records w ++ flat_map (tick_records (root w)) ticks)
             (stdout w ++ flat_map (tick_lines arguments (root w)) ticks)
             (slept w ++ flat_map (tick_sleeps x (root w)) ticks)).
Proof.
  intros Hh Hd Hl Hx Hs. revert w Hh Hd Hl.
  induction ticks as [| t ticks IH]; intros w Hh Hd Hl Hp.
  - cbn. rewrite !app_nil_r. now rewrite world_eta.
  - cbn [Main.loop flat_map].
    rewrite (iteration_step arguments t w x Hh Hd Hl Hx Hs)
      by (apply Hp; now left).
    rewrite IH; cbn [root records stdout slept]; try assumption.
    + now rewrite !app_assoc.
    + intros t' Hin. apply Hp. now right.
Qed.

(** Property X13.  A [--sleep] that [float] rejects is found out only
    after the first reading is printed: frames that [decode] rejects are
    skipped as ever, without output and without an exception, and the
    first frame that it reads is printed, when [print] returns on its
    line, and then ends the program with the [ValueError] of [float]. *)
Theorem loop_sleep_rejected (arguments : Arguments) (w : world) (ex : exn)
        (before after : list tick) (t : tick) :
  handlers (root w) <> O ->
  float (sleep_after_read arguments) = Raise ex ->
  forallb (fun t => negb (decodable (root w) t)) before = true ->
  decodable (root w) t = true ->
  print_returns arguments (root w) t ->
  fst (loop arguments before w) = Next /\
  stdout (snd (loop arguments before w)) = stdout w /\
  fst (loop arguments (before ++ t :: after) w) = Crash (Uncaught ex) /\
  stdout (snd (loop arguments (before ++ t :: after) w))
  = stdout w ++ tick_lines arguments (root w) t.
Proof.
  intros Hh Hx Hbefore Ht Hp. revert w Hh Hbefore Ht Hp.
  induction before as [| b before IH]; intros w Hh Hbefore Ht Hp.
  - cbn [Main.loop app]. split; [reflexivity | split; [reflexivity |]].
    unfold decodable in Ht. unfold Main.print_returns, Main.tick_lines in *.
    destruct (readline t) as [line |] eqn:Hread; [| discriminate Ht].
    destruct (decode line (root w)) as [[rd | e] r'] eqn:Hdec;
      cbn [fst] in Ht, Hp |- *; [| discriminate Ht].
    rewrite (iteration_printed arguments t w line rd r' Hread Hdec)
      by (apply Hp; now left).
    cbv zeta. rewrite Hx. split; reflexivity.
  - cbn [forallb] in Hbefore. apply andb_true_iff in Hbefore as [Hb Hbefore].
    assert (Hstep : exists w',
               iteration arguments b w = (Next, w')
               /\ root w' = root w /\ stdout w' = stdout w).
    { unfold decodable in Hb.
      destruct (readline b) as [line |] eqn:Hread.
      - destruct (fst (decode line (root w))) as [rd | e] eqn:Hdec;
          [discriminate Hb |].
        rewrite (iteration_Raise arguments b w line e Hread Hdec).
        rewrite logging_log_handled by exact Hh.
        eexists. split; [reflexivity | split; reflexivity].
      - unfold Main.iteration. rewrite Hread.
        rewrite logging_log_handled by exact Hh.
        eexists. split; [reflexivity | split; reflexivity]. }
    destruct Hstep as (w' & Hit & Hroot & Hout).
    cbn [Main.loop app]. rewrite Hit.
    rewrite <- Hroot in Hbefore, Ht, Hp |- *. rewrite <- Hout.
    apply IH; [now rewrite Hroot | assumption | assumption | assumption].
Qed.

Lemma forallb_app_true {A} (f : A -> bool) (l l' : list A) :
  forallb f l = true -> forallb f l' = true -> forallb f (l ++ l') = true.
Proof. intros H H'. rewrite forallb_app, H, H'. reflexivity. Qed.

Lemma join_printable (sep : str) (items : list str) :
  forallb printable sep = true ->
  Forall (fun s => forallb printable s = true) items ->
  forallb printable (join sep items) = true.
Proof.
  intros Hsep Hitems. induction Hitems as [| s r Hs Hr IH]; [reflexivity |].
  cbn [join]. destruct r as [| s' r']; [exact Hs |].
  apply forallb_app_true; [exact Hs |].
  apply forallb_app_true; [exact Hsep | exact IH].
Qed.

Lemma hex_digit_printable (n : N) :
  n < 16 -> printable (hex_digit n) = true.
Proof.
  intro H. unfold printable, hex_digit.
  destruct (N.ltb_spec n 10); apply andb_true_iff; split; apply N.leb_le; lia.
Qed.

Lemma u_escape_printable (n : N) : forallb printable (u_escape n) = true.
Proof.
  unfold u_escape. cbn [forallb].
  rewrite !hex_digit_printable by (apply N.mod_lt; discriminate).
  reflexivity.
Qed.

Lemma escape_char_printable (c : N) :
  forallb printable (escape_char c) = true.
Proof.
  unfold escape_char.
  destruct (c =? 92); [reflexivity |].
  destruct (c =? 34); [reflexivity |].
  destruct ((32 <=? c) && (c <=? 126)) eqn:E.
  { cbn [forallb]. unfold printable. now rewrite E. }
  destruct (c =? 8); [reflexivity |].
  destruct (c =? 12); [reflexivity |].
  destruct (c =? 10); [reflexivity |].
  destruct (c =? 13); [reflexivity |].
  destruct (c =? 9); [reflexivity |].
  destruct (c <? 65536); [apply u_escape_printable |].
  apply forallb_app_true; apply u_escape_printable.
Qed.

Lemma encode_basestring_ascii_printable (s : str) :
  forallb printable (encode_basestring_ascii s) = true.
Proof.
  unfold encode_basestring_ascii. cbn [forallb].
  apply forallb_app_true; [| reflexivity].
  induction s as [| c s IH]; [reflexivity |].
  cbn [map List.concat]. apply forallb_app_true;
    [apply escape_char_printable | exact IH].
Qed.

(** Property X14.  In JSON mode the output is printable ASCII: when
    [float.__repr__] gives printable ASCII, so is every line that is
    printed for a reading, whatever the bytes of the frame and the texts
    of the time stamps are; no control character, line break or character
    outside ASCII (the micro sign, the degree sign, Omega, an odd sign
    byte) reaches the output unescaped. *)
Theorem printed_line_json_printable (arguments : Arguments) (t : tick)
        (rd : Reading) :
  (forall x, forallb printable (float_repr x) = true) ->
  as_json arguments = true ->
  forallb printable (printed_line arguments t rd) = true.
Proof.
  intros Hrepr Hj. unfold Main.printed_line. rewrite Hj. unfold dumps.
  apply forallb_app_true; [reflexivity |].
  apply forallb_app_true; [| reflexivity].
  apply join_printable; [reflexivity |].
  apply Forall_forall. intros s Hin.
  apply in_map_iff in Hin as ([k v] & <- & _). cbn [fst snd].
  apply forallb_app_true; [apply encode_basestring_ascii_printable |].
  apply forallb_app_true; [reflexivity |].
  destruct v as [s | x | | items]; cbn [json_value].
  - apply encode_basestring_ascii_printable.
  - unfold floatstr. destruct x as [sg | [|] | | sg m e];
      try apply Hrepr; reflexivity.
  - reflexivity.
  - apply forallb_app_true; [reflexivity |].
    apply forallb_app_true; [| reflexivity].
    apply join_printable; [reflexivity |].
    apply Forall_forall. intros s Hin.
    apply in_map_iff in Hin as (s0 & <- & _).
    apply encode_basestring_ascii_printable.
Qed.

End Rendering.

(** The empty line of a time-out is answered by the warning of the wrong
    length. *)
Lemma iteration_undecodable_witness :
  iteration (fun _ => []) (fun _ => []) (fun _ => false)
            arguments_default tick_timeout main_world
  = (Next,
     mkWorld main_logging [(logging_WARNING, Args (wrong_length 0))] [] []).
Proof.
  refine (proj1 (iteration_undecodable (fun _ => []) (fun _ => [])
                   (fun _ => false) arguments_default tick_timeout
                   main_world [] (wrong_length 0) eq_refl eq_refl _ _)).
  - discriminate.
  - cbv. discriminate.
Defined.


Lemma loop_prints_decodable_witness :
  loop (fun _ => []) (fun _ => []) (fun _ => false)
       arguments_default [tick_OL; tick_timeout; tick_OL] main_world
  = (Next,
     mkWorld main_logging
             [(logging_WARNING, Args (wrong_length 0))]
             [lit ";OL;M;" ++ Ohm ++ lit ";AUTO";
              lit ";OL;M;" ++ Ohm ++ lit ";AUTO"]
             []).
Proof.
  rewrite (loop_prints_decodable (fun _ => []) (fun _ => []) (fun _ => false)
             arguments_default [tick_OL; tick_timeout; tick_OL] main_world
             (S754_zero false)).
  - reflexivity.
  - discriminate.
  - reflexivity.
  - cbv. discriminate.
  - reflexivity.
  - discriminate.
  - intros t [<- | [<- | [<- | []]]] text _; reflexivity.
Defined.

(** With [--sleep abc] the time-out is skipped and the first reading is
    printed before the program ends. *)
Lemma loop_sleep_rejected_witness :
  fst (loop (fun _ => []) (fun _ => []) (fun _ => false)
         arguments_sleep_abc [tick_timeout; tick_OL; tick_OL] main_world)
  = Crash (Uncaught (ValueError
                       (could_not_convert_string_to_float (lit "abc")))).
Proof.
  refine (proj1 (proj2 (proj2
            (loop_sleep_rejected (fun _ => []) (fun _ => []) (fun _ => false)
               arguments_sleep_abc main_world _ [tick_timeout] [tick_OL]
               tick_OL _ eq_refl eq_refl eq_refl _)))).
  - discriminate.
  - intros text _. reflexivity.
Defined.

Lemma printed_line_json_printable_witness :
  forallb printable
          (printed_line (fun _ => lit "0.0") (fun _ => [])
                        arguments_sleep_abc tick_OL reading_OL)
  = true.
Proof.
  apply printed_line_json_printable; [| reflexivity].
  intro x. reflexivity.
Defined.

End Main_Spec.
